(** * Joint taxonomy, parameter tables and calibration loops of [sim]

    A shallow embedding of
    - [sim/stompy_legs/joints.py]      (class [Node], the [Stompy] tables),
    - [sim/scripts/calibration.py]     ([pd_control], [run_id_test], [main]),
    - [sim/scripts/create_fixed_torso.py] ([update_urdf]),
    together with the properties established about them.

    Python [float] is IEEE binary64 and is embedded as Rocq's primitive
    [float]; the elements of the torch tensors are kept at that precision
    too.  Python [int] is [Z], or [nat] where it indexes a tensor; Python
    [str] is [string]; a [dict] whose iteration order the code relies on is
    an association list in insertion order; a raised exception is the
    [Raise] branch of [pyresult].  The physics engine is an oracle: the
    content of its state buffer is an unknown function of the calls made
    so far, and [math.sin] is an unknown function as well. *)

From Stdlib Require Import Floats Uint63 ZArith QArith_base Sorted.
From stdpp Require Import base list strings.

Local Open Scope string_scope.
Local Open Scope list_scope.

(** ** Python values that the scripts rely on *)

Module Py.

(** [needle in hay] on [str]: [needle] occurs as a contiguous substring. *)
Fixpoint contains (needle hay : string) : bool :=
  String.prefix needle hay
  || match hay with
     | EmptyString => false
     | String _ rest => contains needle rest
     end.

(** [s.startswith(p)]. *)
Definition startswith (s p : string) : bool := String.prefix p s.

(** The exceptions the modelled code can raise. *)
Inductive exn : Type :=
| KeyError (key : string)
| IndexError (index : nat)
| AssertionError (msg : string)
| AttributeError (msg : string)
| RuntimeError (msg : string)
| ValueError (msg : string).

Inductive pyresult (A : Type) : Type :=
| Ok (a : A)
| Raise (e : exn).
Arguments Ok {A} a.
Arguments Raise {A} e.

Definition bind {A B} (m : pyresult A) (k : A -> pyresult B) : pyresult B :=
  match m with
  | Ok a => k a
  | Raise e => Raise e
  end.

(** [d[key]] on an insertion-ordered [dict]. *)
Fixpoint dict_get {V} (d : list (string * V)) (key : string) : option V :=
  match d with
  | [] => None
  | (k, v) :: rest => if String.eqb k key then Some v else dict_get rest key
  end.

Definition subscript {V} (d : list (string * V)) (key : string) : pyresult V :=
  match dict_get d key with
  | Some v => Ok v
  | None => Raise (KeyError key)
  end.

Definition keys {V} (d : list (string * V)) : list string := d.*1.

(** [sorted(names)]: insertion sort by code point order, which is the
    order [dir()] returns attribute names in. *)
Fixpoint insert_sorted (x : string) (l : list string) : list string :=
  match l with
  | [] => [x]
  | y :: rest => if String.leb x y then x :: l else y :: insert_sorted x rest
  end.

Definition sorted (l : list string) : list string :=
  foldr insert_sorted [] l.

End Py.

Import Py.

(** Sequencing of statements that may raise, in stdpp's monad notation
    [x ← m; k]. *)
#[global] Instance pyresult_ret : MRet pyresult := @Ok.
#[global] Instance pyresult_bind : MBind pyresult := fun _ _ k m => Py.bind m k.

(** ** [joints.py]: the joint taxonomy *)

(** A class attribute is a joint name ([str]), an instance of another
    [Node] subclass, or anything else (the class methods).  A class is its
    namespace: the attributes in declaration order, with distinct names. *)
Inductive Attr : Type :=
| Str (s : string)
| Inst (cls : Node)
| Other
with Node : Type :=
| Class (attrs : list (string * Attr)).

Definition namespace (cls : Node) : list (string * Attr) :=
  match cls with Class attrs => attrs end.

(** [dir(cls)]: the attribute names, sorted.  The names inherited from
    [Node], [ABC] and [object] are left out: each is either a dunder name
    or bound to a method, so no scan below ever keeps it. *)
Definition dir (cls : Node) : list string := sorted (keys (namespace cls)).

Definition getattr (cls : Node) (name : string) : option Attr :=
  dict_get (namespace cls) name.

(** [(getattr(cls, attr) for attr in dir(cls) if not attr.startswith("__"))] *)
Definition scan (cls : Node) : list Attr :=
  omap (fun name => if startswith name "__" then None else getattr cls name)
       (dir cls).

Definition is_str (a : Attr) : option string :=
  match a with Str s => Some s | _ => None end.



(** [Node.joints] *)
Definition joints (cls : Node) : list string := omap is_str (scan cls).

(** [Node.all_joints].  The recursive calls are made once per attribute of
    the namespace and then read back in the order of [children], which is
    what lets the definition be structural; [all_joints_eq] below is the
    method body as written. *)
Fixpoint all_joints (cls : Node) : list string :=
  match cls with
  | Class attrs =>
      let below :=
        map (fun kv : string * Attr =>
               let (k, v) := kv in
               (k, match v with Inst c => all_joints c | _ => [] end)) attrs in
      joints (Class attrs)
      ++ concat (omap (fun name =>
                         if startswith name "__" then None
                         else match dict_get attrs name with
                              | Some (Str _) => Some []
                              | Some (Inst _) => dict_get below name
                              | _ => None
                              end)
                      (sorted (keys attrs)))
  end.





(** *** The parameter tables

    Every table is a [dict] literal returned by a class method; iteration
    follows the order of the literal.  Integer literals ([250], [7], ...)
    stand at their binary64 value. *)

Record Limits : Type := { lower : float; upper : float }.

Record Robot : Type := {
  tree : Node;
  default_standing : list (string * float);
  default_limits : list (string * Limits);
  stiffness : list (string * float);
  damping : list (string * float);
  effort : list (string * float);
  velocity : list (string * float);
  friction : list (string * float)
}.

#[local] Set Warnings "-inexact-float".

(** The robot of [sim/stompy_legs/joints.py]. *)
Module StompyLegs.

Definition LeftLeg : Node := Class
  [ ("hip_roll", Str "left hip roll");
    ("hip_yaw", Str "left hip yaw");
    ("hip_pitch", Str "left hip pitch");
    ("knee_pitch", Str "left knee pitch");
    ("ankle_pitch", Str "left ankle pitch");
    ("ankle_roll", Str "left ankle roll") ].

Definition RightLeg : Node := Class
  [ ("hip_roll", Str "right hip roll");
    ("hip_yaw", Str "right hip yaw");
    ("hip_pitch", Str "right hip pitch");
    ("knee_pitch", Str "right knee pitch");
    ("ankle_pitch", Str "right ankle pitch");
    ("ankle_roll", Str "right ankle roll") ].

Definition Legs : Node := Class
  [ ("left", Inst LeftLeg); ("right", Inst RightLeg) ].

Definition StompyClass : Node := Class
  [ ("legs", Inst Legs);
    ("default_positions", Other);
    ("default_standing", Other);
    ("default_limits", Other);
    ("stiffness", Other);
    ("damping", Other);
    ("effort", Other);
    ("velocity", Other);
    ("friction", Other) ].

Definition Stompy : Robot := {|
  tree := StompyClass;
  default_standing :=
    [ ("left hip pitch", -1.2); ("left hip yaw", 1.06);
      ("left hip roll", -0.03); ("left knee pitch", -1.27);
      ("left ankle pitch", 0.173); ("left ankle roll", 1.75);
      ("right hip pitch", 0.42); ("right hip yaw", -2.08);
      ("right hip roll", -1.65); ("right knee pitch", 3.3);
      ("right ankle pitch", 0.742); ("right ankle roll", 1.69) ]%float;
  default_limits :=
    [ ("left hip pitch", {| lower := -2.2; upper := -0.2 |});
      ("left hip yaw", {| lower := 0.6; upper := 1.2 |});
      ("left hip roll", {| lower := -1.03; upper := 0.97 |});
      ("left knee pitch", {| lower := -2.27; upper := -0.27 |});
      ("left ankle pitch", {| lower := -0.827; upper := 1.173 |});
      ("left ankle roll", {| lower := 0.75; upper := 2.75 |});
      ("right hip pitch", {| lower := -0.58; upper := 1.42 |});
      ("right hip yaw", {| lower := -2.2; upper := -1.6 |});
      ("right hip roll", {| lower := -2.65; upper := -0.65 |});
      ("right knee pitch", {| lower := 2.3; upper := 4.3 |});
      ("right ankle pitch", {| lower := -0.258; upper := 1.742 |});
      ("right ankle roll", {| lower := 0.69; upper := 2.69 |}) ]%float;
  stiffness :=
    [ ("hip pitch", 250); ("hip yaw", 150); ("hip roll", 150);
      ("knee pitch", 150); ("ankle pitch", 40); ("ankle roll", 40) ]%float;
  damping :=
    [ ("hip pitch", 10); ("hip yaw", 7); ("hip roll", 7);
      ("knee pitch", 7); ("ankle pitch", 1); ("ankle roll", 0.3) ]%float;
  effort :=
    [ ("hip pitch", 150); ("hip yaw", 90); ("hip roll", 90);
      ("knee pitch", 90); ("ankle pitch", 24); ("ankle roll", 24) ]%float;
  velocity :=
    [ ("hip pitch", 40); ("hip yaw", 40); ("hip roll", 40);
      ("knee pitch", 40); ("ankle pitch", 24); ("ankle roll", 24) ]%float;
  friction :=
    [ ("hip pitch", 0.0); ("hip yaw", 0.0); ("hip roll", 0.0);
      ("knee pitch", 0.0); ("ankle pitch", 0.0); ("ankle roll", 0.1) ]%float
|}.

End StompyLegs.

(** ** Category matching, as the two scripts write it *)

(** [calibration.py]:
    [for key, value in table.items(): if key in joint_id: x = value; break]
    with [x] holding [current] before the loop. *)
Fixpoint match_with_break (table : list (string * float)) (joint_id : string)
    (current : float) : float :=
  match table with
  | [] => current
  | (key, value) :: rest =>
      if contains key joint_id then value
      else match_with_break rest joint_id current
  end.

(** [create_fixed_torso.py]:
    [for key, value in table.items(): if key in joint_name: elem.set(a, str(value))]
    with [current] the attribute's content before the loop; there is no
    [break], every matching key writes the attribute again. *)
Fixpoint match_without_break (table : list (string * float))
    (joint_name : string) (current : option float) : option float :=
  match table with
  | [] => current
  | (key, value) :: rest =>
      match_without_break rest joint_name
        (if contains key joint_name then Some value else current)
  end.

(** The entries of a category table whose key occurs in the joint's name,
    in table order. *)
Definition matches (table : list (string * float)) (joint : string)
  : list (string * float) :=
  List.filter (fun kv => contains kv.1 joint) table.

(** The [(kp, kd)] that [run_id_test] computes for [joint_id]. *)
Definition resolve_gains (robot : Robot) (joint_id : string) : float * float :=
  let kd := 10%float in
  let kp := 250%float in
  let kd := match_with_break (damping robot) joint_id kd in
  let kp := match_with_break (stiffness robot) joint_id kp in
  (kp, kd).

(** ** [create_fixed_torso.py]: rewriting the URDF joints

    Parsing and writing the XML file are outside the model; a [<joint>]
    element is the record of what [update_urdf] reads and sets.  An
    attribute holds the number whose [str()] the script stores. *)

Record LimitElem : Type := {
  limit_lower : option float;
  limit_upper : option float;
  limit_effort : option float;
  limit_velocity : option float
}.

Record JointElem : Type := {
  joint_name : string;
  joint_type : string;
  joint_limit : option LimitElem;
  joint_dynamics_friction : option (option float)
}.

(** The body of [for joint in root.findall("joint")]. *)
Definition update_joint (stompy : Robot) (joint : JointElem) : JointElem :=
  let revolute_joints := keys (default_standing stompy) in
  if negb (bool_decide (joint_name joint ∈ revolute_joints)) then
    {| joint_name := joint_name joint;
       joint_type := "fixed";
       joint_limit := joint_limit joint;
       joint_dynamics_friction := joint_dynamics_friction joint |}
  else
    {| joint_name := joint_name joint;
       joint_type := joint_type joint;
       joint_limit :=
         match joint_limit joint with
         | None => None
         | Some limit =>
             let limits := dict_get (default_limits stompy) (joint_name joint) in
             Some {| limit_lower := Some (from_option lower 0.0%float limits);
                     limit_upper := Some (from_option upper 0.0%float limits);
                     limit_effort :=
                       match_without_break (effort stompy) (joint_name joint)
                                           (limit_effort limit);
                     limit_velocity :=
                       match_without_break (velocity stompy) (joint_name joint)
                                           (limit_velocity limit) |}
         end;
       joint_dynamics_friction :=
         match joint_dynamics_friction joint with
         | None => None
         | Some old =>
             Some (match_without_break (friction stompy) (joint_name joint) old)
         end |}.

Definition update_urdf (stompy : Robot) (root : list JointElem) : list JointElem :=
  map (update_joint stompy) root.

(** ** [calibration.py] *)

Local Open Scope float_scope.

(** [pd_control]: "Calculates torques from position commands". *)
Definition pd_control (target_q q kp dq kd default : float) : float :=
  kp * (target_q + default - q) - kd * dq.

(** [torch.clip] on one element: [min(max(x, lo), hi)], a NaN stays NaN. *)
Definition clip1 (lo hi x : float) : float :=
  if x <? lo then lo else if hi <? x then hi else x.

Definition clip (t : list float) (lo hi : float) : list float :=
  map (clip1 lo hi) t.

(** [torch.zeros(1, n)], the single row. *)
Definition zeros (n : nat) : list float := replicate n 0.

(** [t[:, i] = v] on a row; an index past the end raises. *)
Definition setitem (t : list float) (i : nat) (v : float) : pyresult (list float) :=
  if decide (i < length t)%nat then Ok (<[i:=v]> t) else Raise (IndexError i).

(** The calls made on the [gym] object. *)
Inductive GymCall : Type :=
| simulate
| fetch_results
| step_graphics
| draw_viewer
| sync_frame_time
| set_dof_actuation_force_tensor (torques : list float)
| acquire_dof_state_tensor
| refresh_dof_state_tensor
| destroy_viewer
| destroy_sim.

(** An archive written by [np.savez]. *)
Inductive Npz : Type :=
| NpzPositions (positions : list float)
| NpzSeries (step : list Z) (position velocity : list float).

(** What a run has done to the outside: the gym calls, newest first, and the
    files written, newest first. *)
Record World : Type := {
  calls : list GymCall;
  files : list (string * Npz)
}.

Definition gym_call (c : GymCall) (w : World) : World :=
  {| calls := c :: calls w; files := files w |}.

Definition savez (name : string) (a : Npz) (w : World) : World :=
  {| calls := calls w; files := (name, a) :: files w |}.

(** The five calls that advance and draw one frame. *)
Definition frame (w : World) : World :=
  gym_call sync_frame_time
    (gym_call draw_viewer
      (gym_call step_graphics
        (gym_call fetch_results
          (gym_call simulate w)))).

(** [for _ in range(n): body] *)
Fixpoint for_range {S} (n : nat) (body : S -> pyresult S) (s : S) : pyresult S :=
  match n with
  | O => Ok s
  | Datatypes.S n' => s' ← body s; for_range n' body s'
  end.

(** [for x in items: body] *)
Fixpoint for_each {A S} (items : list A) (body : A -> S -> pyresult S) (s : S)
  : pyresult S :=
  match items with
  | [] => Ok s
  | x :: rest => s' ← body x s; for_each rest body s'
  end.

(** [while cond: body], run for at most [fuel] tests of the condition;
    [None] when the fuel does not reach the end of the loop. *)
Fixpoint while {S} (fuel : nat) (cond : S -> bool) (body : S -> pyresult S)
    (s : S) : option (pyresult S) :=
  match fuel with
  | O => None
  | Datatypes.S fuel' =>
      if cond s then
        match body s with
        | Ok s' => while fuel' cond body s'
        | Raise e => Some (Raise e)
        end
      else Some (Ok s)
  end.

(** A run that may raise or may need more fuel. *)
Definition and_then {A B} (m : option (pyresult A))
    (k : A -> option (pyresult B)) : option (pyresult B) :=
  match m with
  | None => None
  | Some (Raise e) => Some (Raise e)
  | Some (Ok a) => k a
  end.

(** [step < steps / d] between an [int] and the quotient of two [int]s:
    the comparison Python makes is the exact one. *)
Definition lt_quotient (step steps : Z) (d : positive) : bool :=
  negb (Qle_bool (steps # d) (inject_Z step)).

(** The [float] of a small non-negative [int]. *)
Definition float_of_int (n : Z) : float :=
  PrimFloat.of_uint63 (Uint63.of_Z n).

(** [math.pi] *)
Definition math_pi : float := 3.141592653589793.

(** The field of [GymParams] that the run reads; the others are handles. *)
Record GymParams : Type := { dof_ids : list (string * nat) }.

(** Local variables of the ["calibration"] branch.  [cal_q] is [None]
    while [q] is still the integer [0] and [Some i] once it is the view
    [dof_pos[0, i]] of the simulator's state buffer. *)
Record CalLocals : Type := {
  cal_step : Z;
  cal_torques : list float;
  cal_q : option nat;
  cal_positions : list float;
  cal_world : World
}.

(** Local variables of the ["sin_id"] branch.  [sin_bound] tells whether
    [dof_pos] and [dof_vel] are still the [torch.zeros] made on entry
    ([false]) or views of the simulator's state buffer ([true]); [sin_q]
    is the index that both [q] and [dq] view. *)
Record SinLocals : Type := {
  sin_step : Z;
  sin_bound : bool;
  sin_q : option nat;
  time_data : list Z;
  position_data : list float;
  velocity_data : list float;
  sin_world : World
}.

Section Calibration.

(** The simulator: the number of degrees of freedom in its state
    buffer, and the content of that buffer, [(position, velocity)] per
    index, after a given history of calls. *)
Variable sim_num_dof : nat.
Variable dof_state : list GymCall -> nat -> float * float.

(** [math.sin] *)
Variable math_sin : float -> float.

(** The robot class the script imports as [Stompy]
    ([sim.resources.stompymini.joints.Robot]). *)
Variable Stompy : Robot.

Definition num_dof : nat := length (all_joints (tree Stompy)).

(** [dof_state.view(1, num_dof, 2)] *)
Definition view (w : World) : pyresult World :=
  if decide (sim_num_dof = num_dof) then Ok w
  else Raise (RuntimeError "shape is invalid for input size").

(** [q.item()] for a view of the state buffer, read when it is called. *)
Definition item (column : float * float -> float) (q : option nat) (w : World)
  : pyresult float :=
  match q with
  | Some i => Ok (column (dof_state (calls w) i))
  | None => Raise (AttributeError "'int' object has no attribute 'item'")
  end.

(** *** Static sweep *)

Definition TORQUE_SOFT : float := 18.

(** One pass of [for _ in range(decimation)] with [soft] the torque
    written for the target joint. *)
Definition sweep_substep (joint_id : nat) (soft : float) (l : CalLocals)
  : pyresult CalLocals :=
  torques ← setitem (cal_torques l) joint_id soft;
  let w := gym_call (set_dof_actuation_force_tensor torques) (cal_world l) in
  let w := gym_call acquire_dof_state_tensor w in
  w ← view w;
  let w := frame w in
  Ok {| cal_step := cal_step l; cal_torques := torques;
        cal_q := Some joint_id; cal_positions := cal_positions l;
        cal_world := w |}.

(** One pass of [while step < steps/40]. *)
Definition sweep_tick (decimation : nat) (joint_id : nat) (soft : float)
    (l : CalLocals) : pyresult CalLocals :=
  l ← for_range decimation (sweep_substep joint_id soft) l;
  p ← item fst (cal_q l) (cal_world l);
  Ok {| cal_step := cal_step l + 1; cal_torques := cal_torques l;
        cal_q := cal_q l; cal_positions := cal_positions l ++ [p];
        cal_world := cal_world l |}.

Definition run_calibration (fuel : nat) (steps : Z) (decimation : nat)
    (joint_name : string) (joint_id : nat) (w : World)
  : option (pyresult World) :=
  let l := {| cal_step := 0; cal_torques := zeros num_dof; cal_q := None;
              cal_positions := []; cal_world := Nat.iter 100 frame w |} in
  and_then
    (while fuel (fun l => lt_quotient (cal_step l) steps 40)
           (sweep_tick decimation joint_id TORQUE_SOFT) l)
    (fun l =>
       let l := {| cal_step := 0; cal_torques := cal_torques l;
                   cal_q := cal_q l; cal_positions := cal_positions l;
                   cal_world := cal_world l |} in
       and_then
         (while fuel (fun l => lt_quotient (cal_step l) steps 40)
                (sweep_tick decimation joint_id (- TORQUE_SOFT)) l)
         (fun l =>
            Some (Ok (savez (joint_name ++ "_calibration.npz")
                            (NpzPositions (cal_positions l))
                            (cal_world l))))).

(** *** Sinusoidal identification *)

Definition torque_limits : float := 18.

(** [set_positions[:, gym.dof_ids[joint]] = val] *)
Definition set_default (gym : GymParams) (kv : string * float)
    (set_positions : list float) : pyresult (list float) :=
  i ← subscript (dof_ids gym) kv.1;
  setitem set_positions i kv.2.

(** [set_positions] as the inner loop builds it. *)
Definition build_set_positions (gym : GymParams) (joint_id : nat)
    (sin_pos : float) : pyresult (list float) :=
  set_positions ←
    for_each (default_standing Stompy) (set_default gym) (zeros num_dof);
  setitem set_positions joint_id sin_pos.

(** [dof_pos[0, id]] and [dof_vel[0, id]] for [id < num_dof]. *)
Definition read_dof (column : float * float -> float) (bound : bool)
    (w : World) (id : nat) : float :=
  if bound then column (dof_state (calls w) id) else 0.

(** The tensor handed to [set_dof_actuation_force_tensor]. *)
Definition track_torques (kp kd sin_pos : float) (bound : bool) (w : World)
    (set_positions : list float) : list float :=
  let set_torques :=
    imap (fun id pos =>
            pd_control sin_pos (read_dof fst bound w id) kp
                       (read_dof snd bound w id) kd pos)
         set_positions in
  clip set_torques (- torque_limits) torque_limits.

(** One pass of [for _ in range(decimation)]; [breakpoint()] is left out. *)
Definition track_substep (gym : GymParams) (joint_id : nat) (kp kd sin_pos : float)
    (l : SinLocals) : pyresult SinLocals :=
  set_positions ← build_set_positions gym joint_id sin_pos;
  let torques :=
    track_torques kp kd sin_pos (sin_bound l) (sin_world l) set_positions in
  let w := gym_call (set_dof_actuation_force_tensor torques) (sin_world l) in
  let w := gym_call acquire_dof_state_tensor w in
  let w := gym_call refresh_dof_state_tensor w in
  w ← view w;
  Ok {| sin_step := sin_step l; sin_bound := true; sin_q := Some joint_id;
        time_data := time_data l; position_data := position_data l;
        velocity_data := velocity_data l; sin_world := w |}.

Definition settle_tick (l : SinLocals) : pyresult SinLocals :=
  Ok {| sin_step := sin_step l + 1; sin_bound := sin_bound l;
        sin_q := sin_q l; time_data := time_data l;
        position_data := position_data l; velocity_data := velocity_data l;
        sin_world := frame (sin_world l) |}.

(** One pass of [while step < 10000]. *)
Definition track_tick (gym : GymParams) (decimation : nat) (dt : float)
    (joint_id : nat) (kp kd default_pos : float) (l : SinLocals)
  : pyresult SinLocals :=
  let l := {| sin_step := sin_step l; sin_bound := sin_bound l;
              sin_q := sin_q l; time_data := time_data l;
              position_data := position_data l;
              velocity_data := velocity_data l;
              sin_world := frame (sin_world l) |} in
  let sin_pos :=
    math_sin (2 * math_pi * float_of_int (sin_step l) * dt / 0.64) in
  l ← for_range decimation (track_substep gym joint_id kp kd sin_pos) l;
  q ← item fst (sin_q l) (sin_world l);
  dq ← item snd (sin_q l) (sin_world l);
  Ok {| sin_step := sin_step l + 1; sin_bound := sin_bound l;
        sin_q := sin_q l; time_data := time_data l ++ [sin_step l];
        position_data := position_data l ++ [q - default_pos];
        velocity_data := velocity_data l ++ [dq];
        sin_world := sin_world l |}.

Definition run_sin_id (fuel : nat) (gym : GymParams) (decimation : nat)
    (dt : float) (joint_id : nat) (kp kd default_pos : float) (w : World)
  : option (pyresult World) :=
  let l := {| sin_step := 0; sin_bound := false; sin_q := None;
              time_data := []; position_data := []; velocity_data := [];
              sin_world := w |} in
  and_then (while fuel (fun l => sin_step l <? 100)%Z settle_tick l)
    (fun l =>
       and_then
         (while fuel (fun l => sin_step l <? 10000)%Z
                (track_tick gym decimation dt joint_id kp kd default_pos) l)
         (fun l =>
            let w := gym_call destroy_viewer (sin_world l) in
            let w := gym_call destroy_sim w in
            Some (Ok (savez "simulaion.npz"
                            (NpzSeries (time_data l) (position_data l)
                                       (velocity_data l)) w)))).

(** The head of [run_id_test], up to the rebinding of [joint_id] to its
    index: the default angle, the gains and the index of the joint.  The
    unused [tau_limit], [kps] and [kds] are left out. *)
Definition run_id_test_setup (gym : GymParams) (joint_id : string)
  : pyresult (float * float * float * nat) :=
  default_pos ← subscript (default_standing Stompy) joint_id;
  let (kp, kd) := resolve_gains Stompy joint_id in
  joint_id ← subscript (dof_ids gym) joint_id;
  Ok (default_pos, kp, kd, joint_id).

(** [run_id_test]; the [print] calls and the plot are left out. *)
Definition run_id_test (fuel : nat) (gym : GymParams) (joint_id : string)
    (mode : string) (w : World) : option (pyresult World) :=
  let joint_name := joint_id in
  and_then (Some (run_id_test_setup gym joint_id))
    (fun '(default_pos, kp, kd, joint_id) =>
       let steps := 10000%Z in
       let dt := 0.001 in
       let decimation := 5%nat in
       if String.eqb mode "calibration" then
         run_calibration fuel steps decimation joint_name joint_id w
       else if String.eqb mode "sin_id" then
         run_sin_id fuel gym decimation dt joint_id kp kd default_pos w
       else Some (Raise (ValueError "Invalid mode"))).

(** The loop of [main], with [run] standing for
    [run_id_test(gym, joint_id=joint, mode=MODE)]. *)
Fixpoint main_loop {W} (run : string -> W -> option (pyresult W))
    (joints : list string) (w : W) : option (pyresult W) :=
  match joints with
  | [] => Some (Ok w)
  | joint :: rest =>
      if contains "shoulder" joint then main_loop run rest w
      else if contains "elbow" joint then main_loop run rest w
      else if contains "wrist" joint then main_loop run rest w
      else if contains "ankle" joint then
        and_then (run joint w) (main_loop run rest)
      else main_loop run rest w
  end.

Definition main (fuel : nat) (gym : GymParams) (w : World)
  : option (pyresult World) :=
  let MODE := "calibration" in
  main_loop (fun joint => run_id_test fuel gym joint MODE)
            (keys (default_standing Stompy)) w.

End Calibration.

(** ** The specification's wording, for comparison *)

(** The joints the specification says the driver calibrates: the
    flattened taxonomy without the excluded categories. *)
Definition exclusion_set : list string := ["shoulder"; "elbow"; "wrist"; "ankle"].

Definition excluded (joint : string) : bool :=
  existsb (fun category => contains category joint) exclusion_set.

Definition spec_calibrated (robot : Robot) : list string :=
  List.filter (fun joint => negb (excluded joint)) (all_joints (tree robot)).

(** The joints on which [main] calls [run_id_test], in call order: the
    driver loop run with a callback that only records its argument. *)
Definition calibrated (robot : Robot) : option (pyresult (list string)) :=
  main_loop (fun joint log => Some (Ok (log ++ [joint])))
            (keys (default_standing robot)) [].

(** The selection that the [if] chain of [main] makes. *)
Definition selected (joint : string) : bool :=
  negb (contains "shoulder" joint) && negb (contains "elbow" joint)
  && negb (contains "wrist" joint) && contains "ankle" joint.

(** [mapM]-style sequencing of a callback over a list. *)
Fixpoint run_each {W} (run : string -> W -> option (pyresult W))
    (joints : list string) (w : W) : option (pyresult W) :=
  match joints with
  | [] => Some (Ok w)
  | joint :: rest => and_then (run joint w) (run_each run rest)
  end.


(** ** Auxiliary notions and test data *)



(** Exactly one key of [table] occurs in the joint's name. *)
Definition one_category (table : list (string * float)) (joint : string) : Prop :=
  exists key value, matches table joint = [(key, value)].

(** Everything the scripts look up for [joint] is found, the category is
    unambiguous in each table, and the default angle lies within the
    travel limits. *)
Definition resolves (robot : Robot) (joint : string) : Prop :=
  exists default limits,
    dict_get (default_standing robot) joint = Some default
    /\ dict_get (default_limits robot) joint = Some limits
    /\ one_category (stiffness robot) joint
    /\ one_category (damping robot) joint
    /\ one_category (effort robot) joint
    /\ one_category (velocity robot) joint
    /\ one_category (friction robot) joint
    /\ (lower limits <=? default)%float = true
    /\ (default <=? upper limits)%float = true.

Definition one_category_b (table : list (string * float)) (joint : string) : bool :=
  match matches table joint with
  | [_] => true
  | _ => false
  end.

Definition resolves_b (robot : Robot) (joint : string) : bool :=
  match dict_get (default_standing robot) joint,
        dict_get (default_limits robot) joint with
  | Some default, Some limits =>
      one_category_b (stiffness robot) joint
      && one_category_b (damping robot) joint
      && one_category_b (effort robot) joint
      && one_category_b (velocity robot) joint
      && one_category_b (friction robot) joint
      && (lower limits <=? default)%float
      && (default <=? upper limits)%float
  | _, _ => false
  end.


(** The reference robot with one more joint, whose name holds no
    category of the tables. *)
Definition toe_robot : Robot := {|
  tree := tree StompyLegs.Stompy;
  default_standing := default_standing StompyLegs.Stompy ++ [("left toe", 0.5%float)];
  default_limits := default_limits StompyLegs.Stompy;
  stiffness := stiffness StompyLegs.Stompy;
  damping := damping StompyLegs.Stompy;
  effort := effort StompyLegs.Stompy;
  velocity := velocity StompyLegs.Stompy;
  friction := friction StompyLegs.Stompy
|}.

Definition toe_gym : GymParams :=
  {| dof_ids := [("left toe", 12%nat)] |}.


(** A [<joint>] element with a [<limit>] and a [<dynamics>] child and no
    attribute set on either. *)
Definition blank_joint (name : string) : JointElem :=
  {| joint_name := name;
     joint_type := "revolute";
     joint_limit := Some {| limit_lower := None; limit_upper := None;
                            limit_effort := None; limit_velocity := None |};
     joint_dynamics_friction := Some None |}.

(** [lo <= t <= hi] *)
Definition within (lo hi t : float) : bool := ((lo <=? t) && (t <=? hi))%float.

(** A torque that went through [torch.clip(_, -torque_limits, torque_limits)]:
    it lies within the limits, unless it is a NaN. *)
Definition clipped (t : float) : Prop :=
  is_nan t = true \/ within (- torque_limits) torque_limits t = true.

(** Every torque tensor handed to the simulator in a history of calls is
    clipped. *)
Definition commands_clipped (history : list GymCall) : Prop :=
  Forall (fun c => match c with
                   | set_dof_actuation_force_tensor torques => Forall clipped torques
                   | _ => True
                   end) history.

(** The entry that the loop over [default_standing.items()] leaves at index
    [i] of [set_positions]: the angle of the last joint whose index is [i],
    and [init] when there is none. *)
Fixpoint placed (gym : GymParams) (items : list (string * float)) (i : nat)
    (init : float) : float :=
  match items with
  | [] => init
  | (joint, val) :: rest =>
      placed gym rest i
             (if decide (dict_get (dof_ids gym) joint = Some i) then val else init)
  end.

(** Every joint of the default-standing mapping has an index in the
    simulator, below the number of joints of the taxonomy. *)
Definition dofs_ok (robot : Robot) (gym : GymParams) : Prop :=
  Forall (fun kv : string * float =>
            exists i, dict_get (dof_ids gym) kv.1 = Some i
                      /\ (i < num_dof robot)%nat)
         (default_standing robot).

(** The reference robot in a simulator that numbers the joints in
    [all_joints] order and never moves them. *)
Definition reference_gym : GymParams :=
  {| dof_ids := imap (fun i joint => (joint, i))
                     (all_joints (tree StompyLegs.Stompy)) |}.

Definition still_state (history : list GymCall) (i : nat) : float * float :=
  (0%float, 0%float).

Definition empty_world : World := {| calls := []; files := [] |}.

(** What the inner loop of a sweep leaves as it was. *)
Definition sweep_kept (robot : Robot) (l l' : CalLocals) : Prop :=
  length (cal_torques l') = num_dof robot
  /\ cal_step l' = cal_step l
  /\ cal_positions l' = cal_positions l
  /\ files (cal_world l') = files (cal_world l).

(** What the inner loop of an identification run leaves as it was. *)
Definition sin_kept (l l' : SinLocals) : Prop :=
  sin_step l' = sin_step l
  /\ time_data l' = time_data l
  /\ position_data l' = position_data l
  /\ velocity_data l' = velocity_data l
  /\ files (sin_world l') = files (sin_world l).

(** The calls made since [w0] hand only clipped torques to the simulator. *)
Definition issued (w0 w : World) : Prop :=
  exists new, calls w = new ++ calls w0 /\ commands_clipped new.



(** ** Further functions of the sources *)





(** *** [only_legs_config.py]: the initial joint angles *)

(** [d[key] = v] on an insertion-ordered [dict]: a known key keeps its
    place, a new one goes to the end. *)
Fixpoint dict_set {V} (d : list (string * V)) (key : string) (v : V)
  : list (string * V) :=
  match d with
  | [] => [(key, v)]
  | (k, x) :: rest =>
      if String.eqb k key then (k, v) :: rest else (k, x) :: dict_set rest key v
  end.

(** [init_state.default_joint_angles]:
    [{k: 0.0 for k in Stompy.all_joints()}], then one assignment per key of
    [Stompy.default_standing()]; [breakpoint()] is left out. *)
Definition default_joint_angles (Stompy : Robot) : pyresult (list (string * float)) :=
  let default_joint_angles :=
    foldl (fun d k => dict_set d k 0.0%float) [] (all_joints (tree Stompy)) in
  let default_positions := default_standing Stompy in
  for_each (keys default_positions)
           (fun joint d =>
              v ← subscript default_positions joint;
              Ok (dict_set d joint v))
           default_joint_angles.

(** ** Further notions for the calibration runs *)

(** Every torque tensor handed to the simulator in a history satisfies [P]. *)
Definition only_commands (P : list float -> Prop) (history : list GymCall) : Prop :=
  Forall (fun c => match c with
                   | set_dof_actuation_force_tensor torques => P torques
                   | _ => True
                   end) history.

Definition is_simulate (c : GymCall) : bool :=
  match c with simulate => true | _ => false end.

Definition is_command (c : GymCall) : bool :=
  match c with set_dof_actuation_force_tensor _ => true | _ => false end.

Definition is_refresh (c : GymCall) : bool :=
  match c with refresh_dof_state_tensor => true | _ => false end.

(** How many calls of a kind a history holds. *)
Definition count_calls (kind : GymCall -> bool) (history : list GymCall) : Z :=
  Z.of_nat (length (List.filter kind history)).

(** The torque tensor of a sweep: [soft] for the target, zero elsewhere. *)
Definition sweep_torques (robot : Robot) (joint_id : nat) (soft : float)
  : list float :=
  <[joint_id := soft]> (zeros (num_dof robot)).

(** A simulator that knows no joint. *)
Definition no_dofs_gym : GymParams := {| dof_ids := [] |}.


(** What the loop over the default-standing mapping raises at a joint: a
    [KeyError] when the simulator has no index for it, an [IndexError]
    when the index is past the joints of the taxonomy. *)
Definition offence (gym : GymParams) (joint : string) : exn :=
  match dict_get (dof_ids gym) joint with
  | Some i => IndexError i
  | None => KeyError joint
  end.

Definition offends (robot : Robot) (gym : GymParams) (joint : string) : Prop :=
  match dict_get (dof_ids gym) joint with
  | Some i => (num_dof robot <= i)%nat
  | None => True
  end.

(** A simulator that knows the knee joint of the left leg only. *)
Definition knee_only_gym : GymParams :=
  {| dof_ids := [("left knee pitch", 5%nat)] |}.

(** The calls [new] made on top of [base] in a sweep: every torque tensor
    is [torques], and so many frames were advanced, tensors handed over
    and state refreshes asked for. *)
Definition sweep_trace (torques : list float) (frames commands : Z)
    (base history : list GymCall) : Prop :=
  exists new,
    history = new ++ base
    /\ only_commands (eq torques) new
    /\ count_calls is_simulate new = frames
    /\ count_calls is_command new = commands
    /\ count_calls is_refresh new = 0%Z.

(** The torque tensor of a sweep is the zero tensor, up to the entry of
    the target. *)
Definition zero_off_target (robot : Robot) (joint_id : nat) (l : CalLocals) : Prop :=
  forall v, <[joint_id := v]> (cal_torques l) = sweep_torques robot joint_id v.

(** On top of [base], [history] holds so many more frames, torque
    tensors and state refreshes. *)
Definition call_counts (frames commands refreshes : Z)
    (base history : list GymCall) : Prop :=
  exists new,
    history = new ++ base
    /\ count_calls is_simulate new = frames
    /\ count_calls is_command new = commands
    /\ count_calls is_refresh new = refreshes.

(** [x] is what the simulator's state buffer held for joint [index], in
    the given column, after some history of calls. *)
Definition sampled (dof_state : list GymCall -> nat -> float * float)
    (column : float * float -> float) (index : nat) (x : float) : Prop :=
  exists history, x = column (dof_state history index).

(** [x] is a reading of joint [index]'s position, less [default_pos]. *)
Definition sampled_offset (dof_state : list GymCall -> nat -> float * float)
    (index : nat) (default_pos x : float) : Prop :=
  exists q, sampled dof_state fst index q /\ x = (q - default_pos)%float.

(** * Properties *)

(** ** The taxonomy *)

Section Taxonomy.

Implicit Types (cls root : Node) (attrs : list (string * Attr)).









End Taxonomy.








(** ** The control law *)

(** C5.  [pd_control] is [kp * (target_q + default - q) - kd * dq] for all
    inputs, each operation being the IEEE binary64 one ([SF64add],
    [SF64sub], [SF64mul] on the numbers the floats denote), and it gives
    [0], [100] and [-20] on the three sample inputs. *)
Theorem pd_control_law :
  (forall target_q q kp dq kd default : float,
      pd_control target_q q kp dq kd default
      = (kp * (target_q + default - q) - kd * dq)%float
      /\ Prim2SF (pd_control target_q q kp dq kd default)
         = SF64sub
             (SF64mul (Prim2SF kp)
                      (SF64sub (SF64add (Prim2SF target_q) (Prim2SF default))
                               (Prim2SF q)))
             (SF64mul (Prim2SF kd) (Prim2SF dq)))
  /\ pd_control 0 0 100 0 10 0 = 0%float
  /\ pd_control 1 0 100 0 10 0 = 100%float
  /\ pd_control 0 0 100 2 10 0 = (-20)%float.
Proof.
  split.
  { intros target_q q kp dq kd default. split; [reflexivity|].
    unfold pd_control.
    by rewrite FloatAxioms.sub_spec, !FloatAxioms.mul_spec,
      FloatAxioms.sub_spec, FloatAxioms.add_spec. }
  split; [vm_compute; reflexivity|].
  split; vm_compute; reflexivity.
Qed.

(** ** Parameter lookup *)

Lemma one_category_b_spec table joint :
  one_category_b table joint = true -> one_category table joint.
Proof.
  unfold one_category_b, one_category.
  destruct (matches table joint) as [|[k v] [|]]; try discriminate.
  intros _. by exists k, v.
Qed.

Lemma resolves_b_spec robot joint :
  resolves_b robot joint = true -> resolves robot joint.
Proof.
  unfold resolves_b, resolves.
  destruct (dict_get (default_standing robot) joint) as [default|]; [|discriminate].
  destruct (dict_get (default_limits robot) joint) as [limits|]; [|discriminate].
  rewrite !andb_true_iff.
  intros [[[[[[H1 H2] H3] H4] H5] H6] H7].
  exists default, limits.
  repeat split; auto using one_category_b_spec.
Qed.

(** C8.  The reference taxonomy has twelve joints, and for each of them
    the default angle and the travel limits are found, each of the five
    category tables has exactly one key occurring in the joint's name, and
    [lower <= default <= upper]. *)
Theorem reference_joints_resolve :
  length (all_joints (tree StompyLegs.Stompy)) = 12%nat
  /\ Forall (resolves StompyLegs.Stompy) (all_joints (tree StompyLegs.Stompy)).
Proof.
  split; [vm_compute; reflexivity|].
  apply Forall_forall. intros joint Hin.
  apply resolves_b_spec.
  assert (forallb (resolves_b StompyLegs.Stompy)
                  (all_joints (tree StompyLegs.Stompy)) = true) as Hall
    by (vm_compute; reflexivity).
  rewrite forallb_forall in Hall. apply Hall.
  by apply list_elem_of_In.
Qed.












(** ** The driver loop *)

Lemma and_then_ext {A B} (m : option (pyresult A))
    (k k' : A -> option (pyresult B)) :
  (forall a, k a = k' a) -> and_then m k = and_then m k'.
Proof. intros Hk. destruct m as [[a|e]|]; cbn; auto. Qed.

Lemma main_loop_eq {W} (run : string -> W -> option (pyresult W)) joints w :
  main_loop run joints w = run_each run (List.filter selected joints) w.
Proof.
  revert w. induction joints as [|joint rest IH]; intros w; [done|].
  cbn [main_loop List.filter]. unfold selected.
  destruct (contains "shoulder" joint); [apply IH|].
  destruct (contains "elbow" joint); [apply IH|].
  destruct (contains "wrist" joint); [apply IH|].
  destruct (contains "ankle" joint); cbn [negb andb run_each]; [|apply IH].
  apply and_then_ext, IH.
Qed.

Lemma run_each_record joints log :
  run_each (fun joint log => Some (Ok (log ++ [joint]))) joints log
  = Some (Ok (log ++ joints)).
Proof.
  revert log. induction joints as [|joint rest IH]; intros log; cbn.
  - by rewrite app_nil_r.
  - rewrite IH. by rewrite <- app_assoc.
Qed.

(** C2 (as amended).  The driver loop walks the keys of the
    default-standing mapping in the order of that mapping and calls
    [run_id_test], in mode ["calibration"], once for each joint whose name
    contains ["ankle"] and none of ["shoulder"], ["elbow"], ["wrist"], and
    for no other joint; a call that raises ends the loop. *)
Theorem main_runs_selected_joints
    (sim_num_dof : nat) (dof_state : list GymCall -> nat -> float * float)
    (math_sin : float -> float)
    (robot : Robot) (fuel : nat) (gym : GymParams) (w : World) :
  main sim_num_dof dof_state math_sin robot fuel gym w
  = run_each (fun joint =>
                run_id_test sim_num_dof dof_state math_sin robot fuel gym
                            joint "calibration")
             (List.filter selected (keys (default_standing robot))) w
  /\ calibrated robot
     = Some (Ok (List.filter selected (keys (default_standing robot)))).
Proof.
  split.
  - unfold main. rewrite main_loop_eq. reflexivity.
  - unfold calibrated. rewrite main_loop_eq. apply run_each_record.
Qed.

(** C2 (counterexample).  On the reference robot the driver calibrates
    the four ankle joints, which the exclusion set names, and none of the
    eight hip and knee joints, which it does not name. *)
Lemma main_calibrates_ankles_only :
  calibrated StompyLegs.Stompy
  = Some (Ok [ "left ankle pitch"; "left ankle roll";
               "right ankle pitch"; "right ankle roll" ])
  /\ spec_calibrated StompyLegs.Stompy
     = [ "left hip pitch"; "left hip roll"; "left hip yaw"; "left knee pitch";
         "right hip pitch"; "right hip roll"; "right hip yaw";
         "right knee pitch" ]
  /\ calibrated StompyLegs.Stompy <> Some (Ok (spec_calibrated StompyLegs.Stompy)).
Proof.
  split; [vm_compute; reflexivity|].
  split; [vm_compute; reflexivity|].
  intros H.
  apply (f_equal (fun r => match r with
                           | Some (Ok l) => length l
                           | _ => 0%nat
                           end)) in H.
  vm_compute in H. discriminate H.
Qed.

(** ** Comparisons of binary64 numbers *)

Section FloatOrder.

Local Open Scope float_scope.

Lemma SFcompare_antisym (a b : spec_float) :
  SFcompare b a = option_map CompOpp (SFcompare a b).
Proof.
  destruct a as [sa|sa| |sa ma ea], b as [sb|sb| |sb mb eb]; cbn;
    try (destruct sa); try (destruct sb); try reflexivity;
    rewrite (Z.compare_antisym ea eb); destruct (ea ?= eb)%Z; cbn; try reflexivity;
    pose proof (Pos.compare_cont_antisym ma mb Eq) as H; cbn in H; rewrite <- H;
    destruct (Pos.compare_cont Eq ma mb); reflexivity.
Qed.

Lemma SFcompare_refl (a : spec_float) :
  a <> S754_nan -> SFcompare a a = Some Eq.
Proof.
  destruct a as [sa|sa| |sa ma ea]; cbn; try destruct sa; try done;
    rewrite Z.compare_refl, Pos.compare_cont_refl; done.
Qed.

Lemma is_nan_spec x : is_nan x = true <-> Prim2SF x = S754_nan.
Proof.
  unfold is_nan. rewrite FloatAxioms.eqb_spec. unfold SFeqb. split.
  - intros H. destruct (Prim2SF x) eqn:E; try done;
      rewrite SFcompare_refl in H; done.
  - intros ->. done.
Qed.

Lemma not_nan_spec x : is_nan x = false -> Prim2SF x <> S754_nan.
Proof. rewrite <- is_nan_spec. congruence. Qed.

Lemma ltb_false_leb x y :
  is_nan x = false -> is_nan y = false -> (x <? y) = false -> (y <=? x) = true.
Proof.
  intros Hx%not_nan_spec Hy%not_nan_spec.
  rewrite FloatAxioms.ltb_spec, FloatAxioms.leb_spec. unfold SFltb, SFleb.
  rewrite (SFcompare_antisym (Prim2SF x) (Prim2SF y)).
  destruct (SFcompare (Prim2SF x) (Prim2SF y)) as [[]|] eqn:E; cbn; try done.
  destruct (Prim2SF x), (Prim2SF y); done.
Qed.

Lemma leb_refl x : is_nan x = false -> (x <=? x) = true.
Proof.
  intros Hx%not_nan_spec. rewrite FloatAxioms.leb_spec. unfold SFleb.
  by rewrite SFcompare_refl.
Qed.

Lemma ltb_nan_l x y : is_nan x = true -> (x <? y) = false.
Proof.
  intros Hx%is_nan_spec. rewrite FloatAxioms.ltb_spec, Hx. reflexivity.
Qed.

Lemma ltb_nan_r x y : is_nan y = true -> (x <? y) = false.
Proof.
  intros Hy%is_nan_spec. rewrite FloatAxioms.ltb_spec, Hy.
  unfold SFltb. by destruct (Prim2SF x).
Qed.

(** A NaN passes through [torch.clip]. *)
Lemma clip1_nan lo hi x : is_nan x = true -> clip1 lo hi x = x.
Proof.
  intros Hx. unfold clip1. by rewrite ltb_nan_l, ltb_nan_r.
Qed.

(** Any other number comes out within the limits. *)
Lemma clip1_within lo hi x :
  is_nan lo = false -> is_nan hi = false -> (lo <=? hi) = true ->
  is_nan x = false -> within lo hi (clip1 lo hi x) = true.
Proof.
  intros Hlo Hhi Hle Hx. unfold within, clip1.
  destruct (x <? lo) eqn:E1.
  - by rewrite leb_refl, Hle.
  - destruct (hi <? x) eqn:E2.
    + by rewrite Hle, leb_refl.
    + by rewrite (ltb_false_leb x lo), (ltb_false_leb hi x).
Qed.

Lemma clip1_clipped x : clipped (clip1 (- torque_limits) torque_limits x).
Proof.
  unfold clipped. destruct (is_nan x) eqn:Hx.
  - left. by rewrite clip1_nan.
  - right. by apply clip1_within.
Qed.

Lemma clip_clipped t : Forall clipped (clip t (- torque_limits) torque_limits).
Proof.
  unfold clip. apply Forall_fmap, Forall_true. intros x. apply clip1_clipped.
Qed.

End FloatOrder.

(** ** Loops *)

Lemma for_range_inv {S} (P Q : S -> Prop) (body : S -> pyresult S) n s :
  (forall s, Q s -> P s) ->
  (forall s, P s -> exists s', body s = Ok s' /\ Q s') ->
  P s -> exists s', for_range (Datatypes.S n) body s = Ok s' /\ Q s'.
Proof.
  intros HQP Hbody. revert s.
  induction n as [|n IH]; intros s Hs;
    destruct (Hbody s Hs) as (s' & E & HQ).
  - exists s'. cbn. rewrite E. done.
  - destruct (IH s' (HQP _ HQ)) as (s'' & E' & HQ').
    exists s''. split; [|done].
    change (for_range (Datatypes.S (Datatypes.S n)) body s)
      with (body s ≫= for_range (Datatypes.S n) body).
    rewrite E. exact E'.
Qed.

(** A loop whose state is known to be [n] passes away from its exit runs
    to that exit, given fuel for the [n + 1] tests of its condition. *)
Lemma while_iterate {S} (cond : S -> bool) (body : S -> pyresult S)
    (I : nat -> S -> Prop) :
  (forall k s, I (Datatypes.S k) s ->
               cond s = true /\ exists s', body s = Ok s' /\ I k s') ->
  (forall s, I 0%nat s -> cond s = false) ->
  forall n fuel s, I n s -> (n < fuel)%nat ->
    exists s', while fuel cond body s = Some (Ok s') /\ I 0%nat s'.
Proof.
  intros Hstep Hend.
  induction n as [|n IH]; intros fuel s HI Hfuel;
    (destruct fuel as [|fuel]; [lia|]); cbn.
  - rewrite (Hend s HI). eauto.
  - destruct (Hstep n s HI) as (Hc & s' & E & HI'). rewrite Hc, E.
    apply IH; [done|lia].
Qed.

Lemma lt_quotient_10000_40 step : lt_quotient step 10000 40 = (step <? 250)%Z.
Proof.
  unfold lt_quotient, Qle_bool. cbn [Qnum Qden inject_Z].
  destruct (Z.ltb_spec step 250), (Z.leb_spec (10000 * 1) (step * 40)); cbn; lia.
Qed.

(** ** The static sweep *)

Lemma files_iter_frame n w : files (Nat.iter n frame w) = files w.
Proof. induction n as [|n IH]; [done|exact IH]. Qed.

Section Sweep.

Variable sim_num_dof : nat.
Variable dof_state : list GymCall -> nat -> float * float.
Variable robot : Robot.
Variable joint_id : nat.
Variable soft : float.

Hypothesis Hshape : sim_num_dof = num_dof robot.
Hypothesis Hindex : (joint_id < num_dof robot)%nat.

Implicit Types l : CalLocals.

Lemma sweep_substep_ok l :
  length (cal_torques l) = num_dof robot ->
  exists l', sweep_substep sim_num_dof robot joint_id soft l = Ok l'
             /\ sweep_kept robot l l' /\ cal_q l' = Some joint_id.
Proof.
  intros Hlen. unfold sweep_substep, setitem, view.
  repeat case_decide; try lia; try done.
  eexists. split; [reflexivity|]. unfold sweep_kept. cbn.
  by rewrite length_insert.
Qed.

Lemma sweep_tick_ok l :
  length (cal_torques l) = num_dof robot ->
  exists l' p, sweep_tick sim_num_dof dof_state robot 5 joint_id soft l = Ok l'
               /\ length (cal_torques l') = num_dof robot
               /\ cal_step l' = (cal_step l + 1)%Z
               /\ cal_positions l' = cal_positions l ++ [p]
               /\ files (cal_world l') = files (cal_world l).
Proof.
  intros Hlen. unfold sweep_tick.
  destruct (for_range_inv
              (fun s => sweep_kept robot l s)
              (fun s => sweep_kept robot l s /\ cal_q s = Some joint_id)
              (sweep_substep sim_num_dof robot joint_id soft) 4 l)
    as (l1 & E & (Hlen1 & Hstep1 & Hpos1 & Hfiles1) & Hq1).
  - by intros s [].
  - intros s (Hs1 & Hs2 & Hs3 & Hs4).
    destruct (sweep_substep_ok s Hs1) as (s' & Es & (H1 & H2 & H3 & H4) & H5).
    exists s'. unfold sweep_kept. rewrite H2, H3, H4. done.
  - done.
  - rewrite E. cbn [mbind pyresult_bind Py.bind]. rewrite Hq1.
    cbn [item mbind pyresult_bind Py.bind].
    eexists _, _. split; [reflexivity|]. cbn. by rewrite Hstep1, Hpos1.
Qed.

(** One ramp: 250 passes of the loop, one sample each. *)
Lemma ramp_ok fuel l :
  (250 < fuel)%nat ->
  cal_step l = 0%Z -> length (cal_torques l) = num_dof robot ->
  exists l' samples,
    while fuel (fun l => lt_quotient (cal_step l) 10000 40)
          (sweep_tick sim_num_dof dof_state robot 5 joint_id soft) l
    = Some (Ok l')
    /\ cal_step l' = 250%Z
    /\ length (cal_torques l') = num_dof robot
    /\ cal_positions l' = cal_positions l ++ samples
    /\ length samples = 250%nat
    /\ files (cal_world l') = files (cal_world l).
Proof.
  intros Hfuel Hstep Hlen.
  destruct (while_iterate
              (fun l => lt_quotient (cal_step l) 10000 40)
              (sweep_tick sim_num_dof dof_state robot 5 joint_id soft)
              (fun k s => (k <= 250)%nat
                          /\ cal_step s = (250 - Z.of_nat k)%Z
                          /\ length (cal_torques s) = num_dof robot
                          /\ files (cal_world s) = files (cal_world l)
                          /\ exists samples,
                               cal_positions s = cal_positions l ++ samples
                               /\ (length samples + k = 250)%nat))
    with (n := 250%nat) (fuel := fuel) (s := l)
    as (l' & E & _ & Hstep' & Hlen' & Hfiles & samples & Hpos & Hsamples).
  - intros k s (Hk & Hs & Hl & Hf & samples & Hp & Hn).
    split; [rewrite lt_quotient_10000_40; apply Z.ltb_lt; lia|].
    destruct (sweep_tick_ok s Hl) as (s' & p & Es & H1 & H2 & H3 & H4).
    exists s'. split; [done|].
    split; [lia|]. split; [lia|]. split; [done|]. split; [congruence|].
    exists (samples ++ [p]). rewrite H3, Hp, <- app_assoc.
    split; [done|]. rewrite length_app. cbn. lia.
  - intros s (_ & Hs & _). rewrite lt_quotient_10000_40. apply Z.ltb_ge. lia.
  - split; [lia|]. split; [by rewrite Hstep|]. split; [done|]. split; [done|].
    exists []. by rewrite app_nil_r.
  - done.
  - exists l', samples. rewrite E. repeat split; try done. lia.
Qed.

End Sweep.

Lemma run_id_test_setup_ok robot gym joint default_pos index :
  dict_get (default_standing robot) joint = Some default_pos ->
  dict_get (dof_ids gym) joint = Some index ->
  run_id_test_setup robot gym joint
  = Ok (default_pos, (resolve_gains robot joint).1,
        (resolve_gains robot joint).2, index).
Proof.
  intros Hdef Hidx. unfold run_id_test_setup, subscript. rewrite Hdef, Hidx.
  cbn -[resolve_gains]. by destruct (resolve_gains robot joint).
Qed.

(** C10.  In mode ["calibration"] (where [steps = 10000]) each of the two
    ramps makes exactly 250 passes and appends one position per pass: the
    first loop ends at [step = 250] with the 250 samples [high], the second
    one, restarted at [step = 0], ends at [step = 250] having appended the
    250 samples [low], and the one archive written holds the 500 positions
    [high ++ low].  The run returns for any fuel above 250. *)
Theorem sweep_saves_500_positions
    (sim_num_dof : nat) (dof_state : list GymCall -> nat -> float * float)
    (math_sin : float -> float) (robot : Robot) (gym : GymParams)
    (joint : string) (w : World) (fuel : nat) (default_pos : float)
    (index : nat) :
  dict_get (default_standing robot) joint = Some default_pos ->
  dict_get (dof_ids gym) joint = Some index ->
  (index < num_dof robot)%nat ->
  sim_num_dof = num_dof robot ->
  (250 < fuel)%nat ->
  let ramp soft :=
    while fuel (fun l => lt_quotient (cal_step l) 10000 40)
          (sweep_tick sim_num_dof dof_state robot 5 index soft) in
  let start :=
    {| cal_step := 0; cal_torques := zeros (num_dof robot); cal_q := None;
       cal_positions := []; cal_world := Nat.iter 100 frame w |} in
  exists l1 l2 high low w',
    ramp TORQUE_SOFT start = Some (Ok l1)
    /\ cal_step l1 = 250%Z /\ cal_positions l1 = high
    /\ length high = 250%nat
    /\ ramp (- TORQUE_SOFT)%float
            {| cal_step := 0; cal_torques := cal_torques l1; cal_q := cal_q l1;
               cal_positions := cal_positions l1; cal_world := cal_world l1 |}
       = Some (Ok l2)
    /\ cal_step l2 = 250%Z /\ cal_positions l2 = high ++ low
    /\ length low = 250%nat
    /\ run_id_test sim_num_dof dof_state math_sin robot fuel gym joint
                   "calibration" w
       = Some (Ok w')
    /\ files w'
       = (joint +:+ "_calibration.npz", NpzPositions (high ++ low)) :: files w
    /\ length (high ++ low) = 500%nat.
Proof.
  intros Hdef Hidx Hindex Hshape Hfuel ramp start. subst ramp. cbv beta.
  destruct (ramp_ok sim_num_dof dof_state robot index TORQUE_SOFT
                    Hshape Hindex fuel start Hfuel)
    as (l1 & high & E1 & Hs1 & Hl1 & Hp1 & Hh & Hf1);
    [done|apply length_replicate|].
  destruct (ramp_ok sim_num_dof dof_state robot index (- TORQUE_SOFT)%float
                    Hshape Hindex fuel
                    {| cal_step := 0; cal_torques := cal_torques l1;
                       cal_q := cal_q l1; cal_positions := cal_positions l1;
                       cal_world := cal_world l1 |} Hfuel)
    as (l2 & low & E2 & Hs2 & Hl2 & Hp2 & Hlow & Hf2); [done|done|].
  unfold start in Hp1, Hf1.
  cbn [cal_positions cal_world] in Hp1, Hp2, Hf1, Hf2.
  rewrite app_nil_l in Hp1. rewrite files_iter_frame in Hf1.
  exists l1, l2, high, low.
  exists (savez (joint +:+ "_calibration.npz") (NpzPositions (high ++ low))
                (cal_world l2)).
  split; [exact E1|]. split; [done|]. split; [done|]. split; [done|].
  split; [exact E2|]. split; [done|].
  split; [by rewrite Hp2, Hp1|]. split; [done|].
  split; [|split; [cbn; congruence|rewrite length_app; lia]].
  unfold run_id_test. rewrite (run_id_test_setup_ok _ _ _ _ _ Hdef Hidx).
  cbn [and_then].
  change (String.eqb "calibration" "calibration") with true. cbv iota.
  unfold run_calibration. fold start.
  rewrite E1. cbn [and_then].
  rewrite E2. cbn [and_then]. by rewrite Hp2, Hp1.
Qed.

Lemma sweep_saves_500_positions_witness :
  exists w' positions,
    run_id_test 12 still_state (fun x => x) StompyLegs.Stompy 251
                reference_gym "left knee pitch" "calibration" empty_world
    = Some (Ok w')
    /\ files w' = [("left knee pitch_calibration.npz", NpzPositions positions)]
    /\ length positions = 500%nat.
Proof.
  destruct (sweep_saves_500_positions
              12 still_state (fun x => x) StompyLegs.Stompy reference_gym
              "left knee pitch" empty_world 251 (-1.27)%float 5)
    as (l1 & l2 & high & low & w' & _ & _ & _ & _ & _ & _ & _ & _ & E & Hf & Hlen);
    [reflexivity|reflexivity|vm_compute; lia|reflexivity|lia|].
  exists w', (high ++ low). split; [exact E|]. split; [exact Hf|exact Hlen].
Defined.

(** ** Sinusoidal identification *)

Lemma issued_refl w : issued w w.
Proof. exists []. split; [done|constructor]. Qed.

Lemma issued_call w0 w c :
  match c with
  | set_dof_actuation_force_tensor torques => Forall clipped torques
  | _ => True
  end ->
  issued w0 w -> issued w0 (gym_call c w).
Proof.
  intros Hc (new & E & Hnew). exists (c :: new). cbn. rewrite E.
  split; [done|by constructor].
Qed.

Lemma issued_frame w0 w : issued w0 w -> issued w0 (frame w).
Proof. intros H. unfold frame. by repeat apply issued_call. Qed.

Lemma set_default_ok gym joint val t j :
  dict_get (dof_ids gym) joint = Some j -> (j < length t)%nat ->
  set_default gym (joint, val) t = Ok (<[j:=val]> t).
Proof.
  intros Hj Hlt. unfold set_default, subscript, setitem. cbn [fst snd].
  rewrite Hj. cbn [mbind pyresult_bind Py.bind]. by rewrite decide_True.
Qed.


Lemma for_each_set_default gym n items :
  Forall (fun kv : string * float =>
            exists i, dict_get (dof_ids gym) kv.1 = Some i /\ (i < n)%nat) items ->
  forall t, length t = n ->
  exists sp, for_each items (set_default gym) t = Ok sp
             /\ length sp = n
             /\ forall i x, t !! i = Some x ->
                            sp !! i = Some (placed gym items i x).
Proof.
  induction 1 as [|[joint val] items (j & Hj & Hlt) _ IH]; intros t Hlen.
  - exists t. by cbn.
  - cbn [fst snd] in *.
    destruct (IH (<[j:=val]> t)) as (sp & E & Hsp & Hget);
      [by rewrite length_insert|].
    exists sp. split; [|split; [done|]].
    { cbn [for_each]. rewrite (set_default_ok _ _ _ _ j) by (done || lia).
      exact E. }
    intros i x Hx. cbn [placed]. rewrite Hj. apply Hget.
    destruct (decide (Some j = Some i)) as [[= ->]|Hne].
    + apply list_lookup_insert_eq. lia.
    + rewrite list_lookup_insert_ne by congruence. done.
Qed.

Lemma build_set_positions_ok robot gym joint_id sin_pos :
  dofs_ok robot gym -> (joint_id < num_dof robot)%nat ->
  exists sp, build_set_positions robot gym joint_id sin_pos = Ok sp
             /\ length sp = num_dof robot
             /\ forall i, (i < num_dof robot)%nat ->
                  sp !! i = Some (if decide (i = joint_id) then sin_pos
                                  else placed gym (default_standing robot) i 0).
Proof.
  intros Hdofs Hjoint. unfold build_set_positions.
  destruct (for_each_set_default gym (num_dof robot) _ Hdofs
                                 (zeros (num_dof robot)))
    as (sp & E & Hlen & Hget); [apply length_replicate|].
  rewrite E. cbn [mbind pyresult_bind Py.bind]. unfold setitem.
  rewrite decide_True by lia.
  eexists. split; [reflexivity|]. split; [by rewrite length_insert|].
  intros i Hi. destruct (decide (i = joint_id)) as [->|Hne].
  - apply list_lookup_insert_eq. lia.
  - rewrite list_lookup_insert_ne by done.
    apply Hget. by apply lookup_replicate_2.
Qed.




Lemma track_torques_clipped dof_state kp kd sin_pos bound w sp :
  Forall clipped (track_torques dof_state kp kd sin_pos bound w sp).
Proof. apply clip_clipped. Qed.

(** What a pass of the inner loop of the Track phase does, whenever it
    returns. *)
Lemma track_substep_inv sim_num_dof dof_state robot gym joint_id kp kd sin_pos
    (l l' : SinLocals) :
  track_substep sim_num_dof dof_state robot gym joint_id kp kd sin_pos l = Ok l' ->
  exists sp,
    build_set_positions robot gym joint_id sin_pos = Ok sp
    /\ calls (sin_world l')
       = refresh_dof_state_tensor
           :: acquire_dof_state_tensor
           :: set_dof_actuation_force_tensor
                (track_torques dof_state kp kd sin_pos (sin_bound l)
                               (sin_world l) sp)
           :: calls (sin_world l)
    /\ sin_kept l l' /\ sin_q l' = Some joint_id /\ sin_bound l' = true.
Proof.
  unfold track_substep.
  destruct (build_set_positions robot gym joint_id sin_pos) as [sp|e];
    cbn [mbind pyresult_bind Py.bind]; [|done].
  unfold view. case_decide; cbn [mbind pyresult_bind Py.bind]; [|done].
  intros [= <-]. exists sp. by cbn.
Qed.

(** The Settle loop: 100 frames, nothing recorded. *)
Lemma settle_ok (w0 : World) fuel :
  (100 < fuel)%nat ->
  exists l,
    while fuel (fun l => sin_step l <? 100)%Z settle_tick
          {| sin_step := 0; sin_bound := false; sin_q := None;
             time_data := []; position_data := []; velocity_data := [];
             sin_world := w0 |}
    = Some (Ok l)
    /\ sin_step l = 100%Z
    /\ time_data l = [] /\ position_data l = [] /\ velocity_data l = []
    /\ files (sin_world l) = files w0
    /\ issued w0 (sin_world l).
Proof.
  intros Hfuel.
  destruct (while_iterate
              (fun l => sin_step l <? 100)%Z settle_tick
              (fun k s => (k <= 100)%nat
                          /\ sin_step s = (100 - Z.of_nat k)%Z
                          /\ time_data s = [] /\ position_data s = []
                          /\ velocity_data s = []
                          /\ files (sin_world s) = files w0
                          /\ issued w0 (sin_world s)))
    with (n := 100%nat) (fuel := fuel)
         (s := {| sin_step := 0; sin_bound := false; sin_q := None;
                  time_data := []; position_data := []; velocity_data := [];
                  sin_world := w0 |})
    as (l & E & _ & H); [| | |done|by exists l].
  - intros k s (Hk & Hs & Ht & Hp & Hv & Hf & Hi).
    split; [apply Z.ltb_lt; lia|].
    eexists. split; [reflexivity|]. cbn.
    repeat split; try done; try lia. by apply issued_frame.
  - intros s (_ & Hs & _). apply Z.ltb_ge. lia.
  - cbn. repeat split; try done. apply issued_refl.
Qed.

Section Track.

Variable sim_num_dof : nat.
Variable dof_state : list GymCall -> nat -> float * float.
Variable math_sin : float -> float.
Variable robot : Robot.
Variable gym : GymParams.
Variable joint_id : nat.
Variables kp kd default_pos dt : float.
Variable w0 : World.

Hypothesis Hshape : sim_num_dof = num_dof robot.
Hypothesis Hdofs : dofs_ok robot gym.
Hypothesis Hindex : (joint_id < num_dof robot)%nat.

Implicit Types l : SinLocals.

Lemma track_substep_ok sin_pos l :
  issued w0 (sin_world l) ->
  exists l',
    track_substep sim_num_dof dof_state robot gym joint_id kp kd sin_pos l = Ok l'
    /\ sin_kept l l' /\ issued w0 (sin_world l') /\ sin_q l' = Some joint_id.
Proof.
  intros Hissued.
  destruct (build_set_positions_ok robot gym joint_id sin_pos Hdofs Hindex)
    as (sp & E & _).
  unfold track_substep, view. rewrite E. cbn [mbind pyresult_bind Py.bind].
  rewrite decide_True by done. cbn [mbind pyresult_bind Py.bind].
  eexists. split; [reflexivity|]. cbn. split; [done|]. split; [|done].
  repeat apply issued_call; try done. apply track_torques_clipped.
Qed.

Lemma track_tick_ok l :
  issued w0 (sin_world l) ->
  exists l' q dq,
    track_tick sim_num_dof dof_state math_sin robot gym 5 dt joint_id kp kd
               default_pos l = Ok l'
    /\ sin_step l' = (sin_step l + 1)%Z
    /\ time_data l' = time_data l ++ [sin_step l]
    /\ position_data l' = position_data l ++ [q]
    /\ velocity_data l' = velocity_data l ++ [dq]
    /\ files (sin_world l') = files (sin_world l)
    /\ issued w0 (sin_world l').
Proof.
  intros Hissued. unfold track_tick.
  set (l0 := {| sin_step := sin_step l; sin_bound := sin_bound l;
                sin_q := sin_q l; time_data := time_data l;
                position_data := position_data l;
                velocity_data := velocity_data l;
                sin_world := frame (sin_world l) |}).
  set (sin_pos := math_sin _).
  destruct (for_range_inv
              (fun s => sin_kept l0 s /\ issued w0 (sin_world s))
              (fun s => (sin_kept l0 s /\ issued w0 (sin_world s))
                        /\ sin_q s = Some joint_id)
              (track_substep sim_num_dof dof_state robot gym joint_id kp kd
                             sin_pos) 4 l0)
    as (l1 & E & ((H1 & H2 & H3 & H4 & H5) & Hiss) & Hq).
  - by intros s [].
  - intros s ((Hs1 & Hs2 & Hs3 & Hs4 & Hs5) & Hs6).
    destruct (track_substep_ok sin_pos s Hs6)
      as (s' & Es & (K1 & K2 & K3 & K4 & K5) & Kiss & Kq).
    exists s'. unfold sin_kept. split; [done|].
    repeat split; try done; congruence.
  - split; [done|]. by apply issued_frame.
  - rewrite E. cbn [mbind pyresult_bind Py.bind]. rewrite Hq.
    cbn [item mbind pyresult_bind Py.bind].
    eexists _, _, _. split; [reflexivity|]. cbn.
    rewrite H1, H2, H3, H4, H5. by cbn.
Qed.

End Track.

Lemma seqZ_snoc (m n : Z) : (0 <= n)%Z -> seqZ m n ++ [(m + n)%Z] = seqZ m (n + 1).
Proof.
  intros Hn. rewrite (seqZ_app m n 1) by lia. f_equal.
Qed.

Section TrackRun.

Variable sim_num_dof : nat.
Variable dof_state : list GymCall -> nat -> float * float.
Variable math_sin : float -> float.
Variable robot : Robot.
Variable gym : GymParams.
Variable joint_id : nat.
Variables kp kd default_pos dt : float.
Variable w0 : World.

Hypothesis Hshape : sim_num_dof = num_dof robot.
Hypothesis Hdofs : dofs_ok robot gym.
Hypothesis Hindex : (joint_id < num_dof robot)%nat.

(** The Track loop entered at [step = 100] with empty traces: 9900
    passes, one sample of each kind per pass. *)
Lemma track_loop_ok fuel (l : SinLocals) :
  (9900 < Z.of_nat fuel)%Z ->
  sin_step l = 100%Z ->
  time_data l = [] -> position_data l = [] -> velocity_data l = [] ->
  issued w0 (sin_world l) ->
  exists l',
    while fuel (fun l => sin_step l <? 10000)%Z
          (track_tick sim_num_dof dof_state math_sin robot gym 5 dt joint_id
                      kp kd default_pos) l
    = Some (Ok l')
    /\ sin_step l' = 10000%Z
    /\ time_data l' = seqZ 100 9900
    /\ Z.of_nat (length (position_data l')) = 9900%Z
    /\ Z.of_nat (length (velocity_data l')) = 9900%Z
    /\ files (sin_world l') = files (sin_world l)
    /\ issued w0 (sin_world l').
Proof.
  intros Hfuel Hstep Ht Hp Hv Hissued.
  destruct (while_iterate
              (fun l => sin_step l <? 10000)%Z
              (track_tick sim_num_dof dof_state math_sin robot gym 5 dt
                          joint_id kp kd default_pos)
              (fun k s => (Z.of_nat k <= 9900)%Z
                          /\ sin_step s = (10000 - Z.of_nat k)%Z
                          /\ time_data s = seqZ 100 (9900 - Z.of_nat k)
                          /\ Z.of_nat (length (position_data s))
                             = (9900 - Z.of_nat k)%Z
                          /\ Z.of_nat (length (velocity_data s))
                             = (9900 - Z.of_nat k)%Z
                          /\ files (sin_world s) = files (sin_world l)
                          /\ issued w0 (sin_world s)))
    with (n := Z.to_nat 9900) (fuel := fuel) (s := l)
    as (l' & E & _ & H1 & H2 & H3 & H4 & H5 & H6).
  - intros k s (Hk & Hs & Htime & Hpos & Hvel & Hf & Hi).
    split; [apply Z.ltb_lt; lia|].
    destruct (track_tick_ok sim_num_dof dof_state math_sin robot gym joint_id
                            kp kd default_pos dt w0 Hshape Hdofs Hindex s Hi)
      as (s' & q & dq & Es & K1 & K2 & K3 & K4 & K5 & K6).
    exists s'. split; [done|].
    split; [lia|]. split; [lia|]. split.
    { rewrite K2, Htime, Hs.
      replace (10000 - Z.of_nat (Datatypes.S k))%Z
        with (100 + (9900 - Z.of_nat (Datatypes.S k)))%Z by lia.
      rewrite seqZ_snoc by lia. f_equal. lia. }
    split; [rewrite K3, length_app; cbn; lia|].
    split; [rewrite K4, length_app; cbn; lia|].
    split; [congruence|done].
  - intros s (_ & Hs & _). apply Z.ltb_ge. lia.
  - rewrite Hstep, Ht, Hp, Hv.
    replace (Z.of_nat (Z.to_nat 9900)) with 9900%Z by lia.
    repeat split; try done.
  - lia.
  - exists l'. rewrite E. repeat split; try done; try lia.
Qed.

End TrackRun.

(** The identification run as a whole. *)
Lemma run_sin_id_ok sim_num_dof dof_state math_sin robot gym dt joint_id
    kp kd default_pos w fuel :
  sim_num_dof = num_dof robot -> dofs_ok robot gym ->
  (joint_id < num_dof robot)%nat -> (9900 < Z.of_nat fuel)%Z ->
  exists w' position velocity,
    run_sin_id sim_num_dof dof_state math_sin robot fuel gym 5 dt joint_id
               kp kd default_pos w = Some (Ok w')
    /\ files w'
       = ("simulaion.npz", NpzSeries (seqZ 100 9900) position velocity)
           :: files w
    /\ Z.of_nat (length position) = 9900%Z
    /\ Z.of_nat (length velocity) = 9900%Z
    /\ issued w w'.
Proof.
  intros Hshape Hdofs Hindex Hfuel.
  destruct (settle_ok w fuel) as (l1 & E1 & S1 & S2 & S3 & S4 & S5 & S6); [lia|].
  destruct (track_loop_ok sim_num_dof dof_state math_sin robot gym joint_id
                          kp kd default_pos dt w Hshape Hdofs Hindex fuel l1)
    as (l2 & E2 & T1 & T2 & T3 & T4 & T5 & T6); try done.
  unfold run_sin_id. rewrite E1. cbn [and_then]. rewrite E2. cbn [and_then].
  eexists _, _, _. split; [reflexivity|]. cbn.
  rewrite T2, T5, S5. split; [done|]. split; [done|]. split; [done|].
  change (issued w (gym_call destroy_sim (gym_call destroy_viewer (sin_world l2)))).
  by repeat apply issued_call.
Qed.

Lemma run_id_test_sin_id sim_num_dof dof_state math_sin robot gym joint w fuel
    default_pos index :
  dict_get (default_standing robot) joint = Some default_pos ->
  dict_get (dof_ids gym) joint = Some index ->
  run_id_test sim_num_dof dof_state math_sin robot fuel gym joint "sin_id" w
  = run_sin_id sim_num_dof dof_state math_sin robot fuel gym 5 0.001 index
               (resolve_gains robot joint).1 (resolve_gains robot joint).2
               default_pos w.
Proof.
  intros Hdef Hidx. unfold run_id_test.
  rewrite (run_id_test_setup_ok _ _ _ _ _ Hdef Hidx). reflexivity.
Qed.

Ltac decide_dofs_ok :=
  unfold dofs_ok; cbn [default_standing StompyLegs.Stompy];
  repeat (constructor; [eexists; split; [reflexivity|vm_compute; lia]|]);
  constructor.

(** C9.  In mode ["sin_id"] (where [steps = 10000] and [decimation = 5])
    the run returns, for any fuel above 9900, having written one archive
    whose three series each hold exactly [10000 - 100 = 9900] samples, one
    per pass of the Track loop; the recorded steps are [100, ..., 9999]. *)
Theorem sin_id_records_9900_samples
    (sim_num_dof : nat) (dof_state : list GymCall -> nat -> float * float)
    (math_sin : float -> float) (robot : Robot) (gym : GymParams)
    (joint : string) (w : World) (fuel : nat) (default_pos : float)
    (index : nat) :
  dict_get (default_standing robot) joint = Some default_pos ->
  dict_get (dof_ids gym) joint = Some index ->
  (index < num_dof robot)%nat ->
  dofs_ok robot gym ->
  sim_num_dof = num_dof robot ->
  (9900 < Z.of_nat fuel)%Z ->
  exists w' position velocity,
    run_id_test sim_num_dof dof_state math_sin robot fuel gym joint "sin_id" w
    = Some (Ok w')
    /\ files w'
       = ("simulaion.npz", NpzSeries (seqZ 100 9900) position velocity)
           :: files w
    /\ Z.of_nat (length (seqZ 100 9900)) = (10000 - 100)%Z
    /\ Z.of_nat (length position) = (10000 - 100)%Z
    /\ Z.of_nat (length velocity) = (10000 - 100)%Z.
Proof.
  intros Hdef Hidx Hindex Hdofs Hshape Hfuel.
  destruct (run_sin_id_ok sim_num_dof dof_state math_sin robot gym 0.001 index
                          (resolve_gains robot joint).1
                          (resolve_gains robot joint).2 default_pos w fuel
                          Hshape Hdofs Hindex Hfuel)
    as (w' & position & velocity & E & Hfiles & Hp & Hv & _).
  exists w', position, velocity.
  rewrite (run_id_test_sin_id _ _ _ _ _ _ _ _ _ _ Hdef Hidx).
  split; [exact E|]. split; [exact Hfiles|].
  rewrite length_seqZ. repeat split; lia.
Qed.

Lemma sin_id_records_9900_samples_witness :
  exists w' position velocity,
    run_id_test 12 still_state (fun x => x) StompyLegs.Stompy (Z.to_nat 9901)
                reference_gym "left knee pitch" "sin_id" empty_world
    = Some (Ok w')
    /\ files w'
       = [("simulaion.npz", NpzSeries (seqZ 100 9900) position velocity)]
    /\ Z.of_nat (length position) = 9900%Z
    /\ Z.of_nat (length velocity) = 9900%Z.
Proof.
  destruct (sin_id_records_9900_samples
              12 still_state (fun x => x) StompyLegs.Stompy reference_gym
              "left knee pitch" empty_world (Z.to_nat 9901) (-1.27)%float 5)
    as (w' & position & velocity & E & Hf & _ & Hp & Hv);
    [reflexivity|reflexivity|vm_compute; lia|decide_dofs_ok|reflexivity|lia|].
  exists w', position, velocity. split; [exact E|].
  split; [exact Hf|]. split; [exact Hp|exact Hv].
Defined.




(** * Further properties of the code *)

(** ** [joints.py] *)

Lemma dict_get_Some_elem {V} (d : list (string * V)) key v :
  dict_get d key = Some v -> (key, v) ∈ d.
Proof.
  induction d as [|[k x] d IH]; cbn; [done|].
  destruct (String.eqb_spec k key) as [->|Hne].
  - intros [= ->]. by left.
  - intros H. right. by apply IH.
Qed.


Lemma dict_get_None {V} (d : list (string * V)) key :
  dict_get d key = None <-> key ∉ keys d.
Proof.
  unfold keys. induction d as [|[k x] d IH]; cbn.
  - split; [intros _ ?%elem_of_nil; done|done].
  - rewrite not_elem_of_cons. destruct (String.eqb_spec k key) as [->|Hne].
    + split; [done|]. by intros [].
    + rewrite IH. split; [by split|by intros []].
Qed.








(** ** Category matching *)

Lemma match_with_break_head table joint current :
  match_with_break table joint current
  = match head (matches table joint) with
    | Some (_, value) => value
    | None => current
    end.
Proof.
  unfold matches. induction table as [|[k v] table IH]; cbn; [done|].
  destruct (contains k joint); [done|exact IH].
Qed.

Lemma match_without_break_last_match table joint current :
  match_without_break table joint current
  = match last (matches table joint) with
    | Some (_, value) => Some value
    | None => current
    end.
Proof.
  unfold matches. revert current.
  induction table as [|[k v] table IH]; intros current; cbn; [done|].
  rewrite IH. destruct (contains k joint); [|done].
  rewrite last_cons. by destruct (last _) as [[]|].
Qed.

(** X4.  Both lookup loops are decided by the table entries whose key
    occurs in the joint's name, taken in table order: the loop with
    [break] returns the value of the first of them, the loop without
    [break] leaves the value of the last of them, and each leaves what
    was there before when there is none. *)
Theorem lookup_loops_pick_first_and_last
    (table : list (string * float)) (joint : string) :
  (forall current,
      match_with_break table joint current
      = match head (matches table joint) with
        | Some (_, value) => value
        | None => current
        end)
  /\ (forall current,
        match_without_break table joint current
        = match last (matches table joint) with
          | Some (_, value) => Some value
          | None => current
          end)
  /\ forall key value,
       (key, value) ∈ matches table joint
       <-> (key, value) ∈ table /\ contains key joint = true.
Proof.
  split; [intros; apply match_with_break_head|].
  split; [intros; apply match_without_break_last_match|].
  intros key value. unfold matches.
  rewrite !list_elem_of_In, filter_In. done.
Qed.

(** X5.  When exactly one key of a table occurs in the joint's name (as
    for every joint of the reference robot), the loop with [break] and the
    loop without it settle on the same value, whatever was there before. *)
Theorem lookup_loops_agree_on_one_category
    (table : list (string * float)) (joint key : string) (value : float) :
  matches table joint = [(key, value)] ->
  forall current old,
    match_with_break table joint current = value
    /\ match_without_break table joint old = Some value.
Proof.
  intros Hone current old.
  by rewrite match_with_break_head, match_without_break_last_match, Hone.
Qed.

Lemma lookup_loops_agree_on_one_category_witness :
  match_with_break (stiffness StompyLegs.Stompy) "left knee pitch" 250 = 150%float
  /\ match_without_break (stiffness StompyLegs.Stompy) "left knee pitch" None
     = Some 150%float.
Proof.
  exact (lookup_loops_agree_on_one_category
           (stiffness StompyLegs.Stompy) "left knee pitch" "knee pitch" 150
           eq_refl 250%float None).
Defined.

Lemma prefix_spec (p s : string) :
  String.prefix p s = true <-> exists rest, s = p +:+ rest.
Proof.
  revert p. induction s as [|b s IH]; intros [|a p]; cbn.
  - split; [by exists ""|done].
  - split; [done|by intros [rest ?]].
  - split; [by exists (String b s)|done].
  - destruct (Ascii.ascii_dec a b) as [->|Hne].
    + rewrite IH. split; intros [rest E]; exists rest.
      * cbn. by rewrite E.
      * cbn in E. by injection E.
    + split; [done|]. intros [rest E]. cbn in E. by injection E.
Qed.

(** X6.  The test [key in joint] that selects categories and joints holds
    exactly when the joint's name is some text, then the key, then some
    text; in particular the empty key occurs in every name and every name
    occurs in itself. *)
Theorem contains_iff_substring (needle hay : string) :
  (contains needle hay = true
   <-> exists before after, hay = before +:+ needle +:+ after)
  /\ contains "" hay = true
  /\ contains hay hay = true.
Proof.
  assert (forall needle hay,
             contains needle hay = true
             <-> exists before after, hay = before +:+ needle +:+ after) as Hspec.
  { clear. intros needle hay. split.
    - induction hay as [|c hay IH]; cbn [contains]; rewrite orb_true_iff.
      + intros [Hp|]; [|done]. apply prefix_spec in Hp as [rest ->].
        by exists "", rest.
      + intros [Hp|Hc].
        * apply prefix_spec in Hp as [rest ->]. by exists "", rest.
        * destruct (IH Hc) as (before & after & ->).
          by exists (String c before), after.
    - intros (before & after & ->).
      induction before as [|c before IH].
      + change (contains needle (needle +:+ after) = true).
        assert (String.prefix needle (needle +:+ after) = true) as Hp
          by (apply prefix_spec; by exists after).
        revert Hp. generalize (needle +:+ after).
        intros [|c h] Hp; cbn [contains]; by rewrite Hp.
      + change (contains needle (String c (before +:+ needle +:+ after)) = true).
        cbn [contains]. rewrite IH. apply orb_true_r. }
  split; [apply Hspec|]. split.
  - apply Hspec. by exists "", hay.
  - apply Hspec. exists "", "". change (hay = hay +:+ ""). clear.
    induction hay as [|c hay IH]; [done|].
    change (String c hay = String c (hay +:+ "")). by f_equal.
Qed.

(** ** [create_fixed_torso.py] *)

Lemma match_without_break_idem table joint current :
  match_without_break table joint (match_without_break table joint current)
  = match_without_break table joint current.
Proof.
  rewrite !match_without_break_last_match.
  by destruct (last (matches table joint)) as [[]|].
Qed.

Lemma update_joint_idem stompy joint :
  update_joint stompy (update_joint stompy joint) = update_joint stompy joint.
Proof.
  unfold update_joint.
  destruct (bool_decide (joint_name joint ∈ keys (default_standing stompy)))
    eqn:Hin; cbn [negb joint_name joint_type joint_limit joint_dynamics_friction];
    rewrite Hin; cbn [negb]; [|done].
  f_equal.
  - destruct (joint_limit joint) as [limit|]; [|done].
    cbn [limit_effort limit_velocity].
    by rewrite !match_without_break_idem.
  - destruct (joint_dynamics_friction joint) as [old|]; [|done].
    by rewrite match_without_break_idem.
Qed.

(** X7.  Rewriting the joints a second time changes nothing: [update_urdf]
    applied to its own output returns that output. *)
Theorem update_urdf_idempotent (stompy : Robot) (root : list JointElem) :
  update_urdf stompy (update_urdf stompy root) = update_urdf stompy root.
Proof.
  unfold update_urdf. induction root as [|joint root IH]; [done|].
  cbn [map]. by rewrite update_joint_idem, IH.
Qed.

(** X8.  [update_urdf] keeps the joints, their order and their names; it
    sets the type to ["fixed"] for exactly the joints whose name is not a
    key of the default-standing mapping and leaves their limit and dynamics
    as they were; it keeps the type of the others; and it never adds or
    removes a [<limit>] or [<dynamics>] child. *)
Theorem update_urdf_keeps_structure (stompy : Robot) (root : list JointElem) :
  map joint_name (update_urdf stompy root) = map joint_name root
  /\ map joint_type (update_urdf stompy root)
     = map (fun joint =>
              if bool_decide (joint_name joint ∈ keys (default_standing stompy))
              then joint_type joint else "fixed") root
  /\ Forall2 (fun joint joint' =>
                (joint_name joint ∉ keys (default_standing stompy) ->
                 joint_limit joint' = joint_limit joint
                 /\ joint_dynamics_friction joint'
                    = joint_dynamics_friction joint)
                /\ (is_Some (joint_limit joint') <-> is_Some (joint_limit joint))
                /\ (is_Some (joint_dynamics_friction joint')
                    <-> is_Some (joint_dynamics_friction joint)))
             root (update_urdf stompy root).
Proof.
  unfold update_urdf. split; [|split].
  - induction root as [|joint root IH]; [done|]. cbn [map]. rewrite IH.
    f_equal. unfold update_joint. by destruct (negb _).
  - induction root as [|joint root IH]; [done|]. cbn [map]. rewrite IH.
    f_equal. unfold update_joint. by destruct (bool_decide _).
  - induction root as [|joint root IH]; [constructor|].
    cbn [map]. constructor; [|exact IH]. unfold update_joint.
    destruct (bool_decide_reflect
                (joint_name joint ∈ keys (default_standing stompy)))
      as [Hin|Hout]; cbn [negb joint_limit joint_dynamics_friction].
    + split; [done|].
      destruct (joint_limit joint), (joint_dynamics_friction joint);
        split; split; intros []; eauto.
    + done.
Qed.

(** X9.  For a joint that has an entry in the default-standing mapping
    and in the limits mapping, and exactly one category in each of the
    effort, velocity and friction tables, the rewritten [<limit>] child
    holds that entry's lower and upper limit and that category's effort
    and velocity, and the rewritten [<dynamics>] child that category's
    friction, whatever the elements held before. *)
Theorem update_joint_emits_resolved_values
    (stompy : Robot) (joint : JointElem) (limits : Limits)
    (limit : LimitElem) (old : option float)
    (ke kv kf : string) (e v f : float) :
  joint_name joint ∈ keys (default_standing stompy) ->
  dict_get (default_limits stompy) (joint_name joint) = Some limits ->
  matches (effort stompy) (joint_name joint) = [(ke, e)] ->
  matches (velocity stompy) (joint_name joint) = [(kv, v)] ->
  matches (friction stompy) (joint_name joint) = [(kf, f)] ->
  joint_limit joint = Some limit ->
  joint_dynamics_friction joint = Some old ->
  update_joint stompy joint
  = {| joint_name := joint_name joint;
       joint_type := joint_type joint;
       joint_limit := Some {| limit_lower := Some (lower limits);
                              limit_upper := Some (upper limits);
                              limit_effort := Some e;
                              limit_velocity := Some v |};
       joint_dynamics_friction := Some (Some f) |}.
Proof.
  intros Hin Hlimits He Hv Hf Hlimit Hdyn. unfold update_joint.
  rewrite bool_decide_true by done. cbn [negb].
  rewrite Hlimit, Hdyn, Hlimits, !match_without_break_last_match, He, Hv, Hf.
  reflexivity.
Qed.

Lemma update_joint_emits_resolved_values_witness :
  update_joint StompyLegs.Stompy (blank_joint "left knee pitch")
  = {| joint_name := "left knee pitch";
       joint_type := "revolute";
       joint_limit := Some {| limit_lower := Some (-2.27)%float;
                              limit_upper := Some (-0.27)%float;
                              limit_effort := Some 90%float;
                              limit_velocity := Some 40%float |};
       joint_dynamics_friction := Some (Some 0%float) |}.
Proof.
  refine (update_joint_emits_resolved_values
            StompyLegs.Stompy (blank_joint "left knee pitch")
            {| lower := -2.27; upper := -0.27 |}
            {| limit_lower := None; limit_upper := None;
               limit_effort := None; limit_velocity := None |} None
            "knee pitch" "knee pitch" "knee pitch" 90 40 0
            _ eq_refl eq_refl eq_refl eq_refl eq_refl eq_refl).
  apply list_elem_of_In. cbn. do 3 right. by left.
Defined.

(** ** [only_legs_config.py] *)

Lemma dict_get_set {V} (d : list (string * V)) key v key' :
  dict_get (dict_set d key v) key'
  = if String.eqb key key' then Some v else dict_get d key'.
Proof.
  induction d as [|[k x] d IH]; cbn; [done|].
  destruct (String.eqb_spec k key) as [->|Hne]; cbn.
  - by destruct (String.eqb key key').
  - destruct (String.eqb_spec k key') as [->|Hne'].
    + destruct (String.eqb_spec key key'); congruence.
    + exact IH.
Qed.

Lemma keys_dict_set {V} (d : list (string * V)) key v :
  keys (dict_set d key v)
  = if bool_decide (key ∈ keys d) then keys d else keys d ++ [key].
Proof.
  unfold keys. induction d as [|[k x] d IH]; cbn; [done|].
  destruct (String.eqb_spec k key) as [->|Hne]; cbn.
  - rewrite bool_decide_true; [done|by left].
  - rewrite IH. destruct (bool_decide_reflect (key ∈ d.*1)) as [Hin|Hout].
    + rewrite bool_decide_true; [done|by right].
    + rewrite bool_decide_false; [done|].
      rewrite not_elem_of_cons. by split.
Qed.

Lemma NoDup_dict_set {V} (d : list (string * V)) key v :
  NoDup (keys d) -> NoDup (keys (dict_set d key v)).
Proof.
  intros Hd. rewrite keys_dict_set.
  destruct (bool_decide_reflect (key ∈ keys d)) as [Hin|Hout]; [done|].
  apply NoDup_app. split; [done|]. split; [|apply NoDup_singleton].
  intros x Hx ->%list_elem_of_singleton. done.
Qed.

Lemma comprehension_spec (l : list string) (d : list (string * float)) :
  let d' := foldl (fun d k => dict_set d k 0.0%float) d l in
  (NoDup (keys d) -> NoDup (keys d'))
  /\ forall key, dict_get d' key
                 = if bool_decide (key ∈ l) then Some 0.0%float
                   else dict_get d key.
Proof.
  revert d. induction l as [|k l IH]; intros d; cbn [foldl].
  - split; [done|]. intros key. by rewrite bool_decide_false by apply not_elem_of_nil.
  - destruct (IH (dict_set d k 0.0%float)) as [Hnodup Hget]. split.
    + intros Hd. by apply Hnodup, NoDup_dict_set.
    + intros key. rewrite Hget, dict_get_set.
      destruct (bool_decide_reflect (key ∈ l)) as [Hin|Hout].
      * rewrite bool_decide_true; [done|by right].
      * destruct (String.eqb_spec k key) as [->|Hne].
        -- rewrite bool_decide_true; [done|by left].
        -- rewrite bool_decide_false; [done|].
           rewrite not_elem_of_cons. split; [congruence|done].
Qed.

Lemma assignments_spec (positions : list (string * float)) (l : list string)
    (d : list (string * float)) :
  l ⊆ keys positions ->
  exists d',
    for_each l (fun joint d =>
                  v ← subscript positions joint; Ok (dict_set d joint v)) d
    = Ok d'
    /\ (NoDup (keys d) -> NoDup (keys d'))
    /\ forall key, dict_get d' key
                   = if bool_decide (key ∈ l) then dict_get positions key
                     else dict_get d key.
Proof.
  revert d. induction l as [|k l IH]; intros d Hsub.
  - exists d. split; [done|]. split; [done|]. intros key.
    by rewrite bool_decide_false by apply not_elem_of_nil.
  - assert (k ∈ keys positions) as Hk by (apply Hsub; by left).
    destruct (dict_get positions k) as [v|] eqn:Hv;
      [|by apply dict_get_None in Hv].
    destruct (IH (dict_set d k v)) as (d' & E & Hnodup & Hget).
    { intros x Hx. apply Hsub. by right. }
    exists d'. split; [|split].
    + cbn [for_each].
      assert (subscript positions k = Ok v) as -> by (unfold subscript; by rewrite Hv).
      exact E.
    + intros Hd. by apply Hnodup, NoDup_dict_set.
    + intros key. rewrite Hget, dict_get_set.
      destruct (bool_decide_reflect (key ∈ l)) as [Hin|Hout].
      * rewrite bool_decide_true; [done|by right].
      * destruct (String.eqb_spec k key) as [->|Hne].
        -- rewrite bool_decide_true; [done|by left].
        -- rewrite bool_decide_false; [done|].
           rewrite not_elem_of_cons. split; [congruence|done].
Qed.

(** X10.  The initial joint angles of the training configuration are
    always built without a [KeyError]; the mapping has no repeated key; a
    joint of the default-standing mapping holds its default standing
    angle, any other joint of [all_joints()] holds [0.0], and no other
    name is a key. *)
Theorem default_joint_angles_lookup (Stompy : Robot) :
  exists angles,
    default_joint_angles Stompy = Ok angles
    /\ NoDup (keys angles)
    /\ forall joint,
         dict_get angles joint
         = match dict_get (default_standing Stompy) joint with
           | Some angle => Some angle
           | None => if bool_decide (joint ∈ all_joints (tree Stompy))
                     then Some 0.0%float else None
           end.
Proof.
  unfold default_joint_angles.
  destruct (comprehension_spec (all_joints (tree Stompy)) []) as [Hn0 Hget0].
  destruct (assignments_spec
              (default_standing Stompy) (keys (default_standing Stompy))
              (foldl (fun d k => dict_set d k 0.0%float) []
                     (all_joints (tree Stompy))))
    as (angles & E & Hn & Hget); [done|].
  exists angles. split; [exact E|]. split.
  - apply Hn, Hn0. constructor.
  - intros joint. rewrite Hget, Hget0.
    destruct (bool_decide_reflect (joint ∈ keys (default_standing Stompy)))
      as [Hin|Hout].
    + destruct (dict_get (default_standing Stompy) joint) eqn:Hv; [done|].
      by apply dict_get_None in Hv.
    + apply dict_get_None in Hout. by rewrite Hout.
Qed.

(** ** [calibration.py]: how a run fails *)

Lemma run_id_test_unknown_joint sim_num_dof dof_state math_sin robot gym
    joint mode fuel w :
  dict_get (default_standing robot) joint = None
  \/ dict_get (dof_ids gym) joint = None ->
  run_id_test sim_num_dof dof_state math_sin robot fuel gym joint mode w
  = Some (Raise (KeyError joint)).
Proof.
  intros Hmissing. unfold run_id_test, run_id_test_setup, subscript.
  destruct (dict_get (default_standing robot) joint) as [d|] eqn:Hd;
    cbn [mbind pyresult_bind Py.bind and_then]; [|done].
  destruct Hmissing as [|Hi]; [done|]. rewrite Hi.
  by destruct (resolve_gains robot joint).
Qed.

(** X11.  [run_id_test] looks the joint up before it looks at the mode
    or touches the simulator: a joint that is no key of the
    default-standing mapping, or that has no index in the simulator,
    raises [KeyError] with the joint's name, whatever the mode; only for a
    joint found in both does an unknown mode raise
    [ValueError("Invalid mode")]. *)
Theorem run_id_test_lookup_errors
    (sim_num_dof : nat) (dof_state : list GymCall -> nat -> float * float)
    (math_sin : float -> float) (robot : Robot) (gym : GymParams)
    (joint mode : string) (fuel : nat) (w : World) :
  (dict_get (default_standing robot) joint = None
   \/ dict_get (dof_ids gym) joint = None ->
   run_id_test sim_num_dof dof_state math_sin robot fuel gym joint mode w
   = Some (Raise (KeyError joint)))
  /\ (is_Some (dict_get (default_standing robot) joint) ->
      is_Some (dict_get (dof_ids gym) joint) ->
      mode <> "calibration" -> mode <> "sin_id" ->
      run_id_test sim_num_dof dof_state math_sin robot fuel gym joint mode w
      = Some (Raise (ValueError "Invalid mode"))).
Proof.
  split.
  - apply run_id_test_unknown_joint.
  - intros [d Hd] [i Hi] Hcal Hsin.
    unfold run_id_test. rewrite (run_id_test_setup_ok _ _ _ _ _ Hd Hi).
    cbn [and_then].
    destruct (String.eqb_spec mode "calibration") as [|_]; [done|].
    destruct (String.eqb_spec mode "sin_id") as [|_]; [done|].
    reflexivity.
Qed.

Lemma run_id_test_lookup_errors_witness :
  run_id_test 12 still_state (fun x => x) StompyLegs.Stompy 0
              reference_gym "left toe" "sin_id" empty_world
  = Some (Raise (KeyError "left toe")).
Proof.
  exact (proj1 (run_id_test_lookup_errors
                  12 still_state (fun x => x) StompyLegs.Stompy reference_gym
                  "left toe" "sin_id" 0 empty_world)
               (or_introl eq_refl)).
Defined.

(** ** [calibration.py]: the set-points of the Track phase *)







Lemma set_default_offence robot gym missing v t :
  length t = num_dof robot -> offends robot gym missing ->
  set_default gym (missing, v) t = Raise (offence gym missing).
Proof.
  unfold offends, offence, set_default, subscript, setitem. cbn [fst snd].
  intros Hlen Hoff.
  destruct (dict_get (dof_ids gym) missing) as [i|];
    cbn [mbind pyresult_bind Py.bind]; [|done].
  by rewrite decide_False by lia.
Qed.

Lemma build_set_positions_offence robot gym joint_id sin_pos pre missing v post :
  default_standing robot = pre ++ (missing, v) :: post ->
  Forall (fun kv : string * float =>
            exists i, dict_get (dof_ids gym) kv.1 = Some i
                      /\ (i < num_dof robot)%nat) pre ->
  offends robot gym missing ->
  build_set_positions robot gym joint_id sin_pos = Raise (offence gym missing).
Proof.
  intros Hsplit Hpre Hoff. unfold build_set_positions. rewrite Hsplit.
  clear Hsplit.
  assert (forall t, length t = num_dof robot ->
                    for_each (pre ++ (missing, v) :: post) (set_default gym) t
                    = Raise (offence gym missing)) as Hloop.
  { induction Hpre as [|[k x] pre (i & Hi & Hlt) _ IH]; intros t Hlen.
    - cbn [app for_each]. by rewrite (set_default_offence robot).
    - cbn [app for_each]. cbn [fst] in Hi.
      rewrite (set_default_ok _ _ _ _ i) by (done || lia).
      cbn [mbind pyresult_bind Py.bind]. apply IH. by rewrite length_insert. }
  by rewrite Hloop by apply length_replicate.
Qed.

Lemma track_substep_raises sim_num_dof dof_state robot gym joint_id kp kd
    sin_pos e l :
  build_set_positions robot gym joint_id sin_pos = Raise e ->
  track_substep sim_num_dof dof_state robot gym joint_id kp kd sin_pos l
  = Raise e.
Proof. intros Hbuild. unfold track_substep. by rewrite Hbuild. Qed.

Lemma track_tick_raises sim_num_dof dof_state math_sin robot gym dt joint_id
    kp kd default_pos e l :
  (forall sin_pos, build_set_positions robot gym joint_id sin_pos = Raise e) ->
  track_tick sim_num_dof dof_state math_sin robot gym 5 dt joint_id kp kd
             default_pos l = Raise e.
Proof.
  intros Hbuild. unfold track_tick. cbn [for_range].
  by rewrite (track_substep_raises _ _ _ _ _ _ _ _ e).
Qed.

Lemma run_sin_id_raises sim_num_dof dof_state math_sin robot gym dt joint_id
    kp kd default_pos e w fuel :
  (forall sin_pos, build_set_positions robot gym joint_id sin_pos = Raise e) ->
  (100 < fuel)%nat ->
  run_sin_id sim_num_dof dof_state math_sin robot fuel gym 5 dt joint_id
             kp kd default_pos w = Some (Raise e).
Proof.
  intros Hbuild Hfuel. unfold run_sin_id.
  destruct (settle_ok w fuel Hfuel) as (l1 & E1 & Hstep & _).
  rewrite E1. cbn [and_then].
  destruct fuel as [|fuel]; [lia|]. cbn [while].
  rewrite Hstep. change (100 <? 10000)%Z with true. cbv iota.
  by rewrite (track_tick_raises _ _ _ _ _ _ _ _ _ _ e).
Qed.

(** X13.  A ["sin_id"] run for a joint that is found fails in its first
    Track pass, after the Settle loop, when the default-standing mapping
    holds a joint the simulator cannot place: the first such joint of the
    mapping decides the error, [KeyError] with its name when it has no
    index, [IndexError] when its index is past the joints of the
    taxonomy.  Nothing is recorded or saved. *)
Theorem sin_id_fails_on_first_unplaced_joint
    (sim_num_dof : nat) (dof_state : list GymCall -> nat -> float * float)
    (math_sin : float -> float) (robot : Robot) (gym : GymParams)
    (joint : string) (w : World) (fuel : nat)
    (pre post : list (string * float)) (missing : string) (v : float) :
  is_Some (dict_get (default_standing robot) joint) ->
  is_Some (dict_get (dof_ids gym) joint) ->
  default_standing robot = pre ++ (missing, v) :: post ->
  Forall (fun kv : string * float =>
            exists i, dict_get (dof_ids gym) kv.1 = Some i
                      /\ (i < num_dof robot)%nat) pre ->
  offends robot gym missing ->
  (100 < fuel)%nat ->
  run_id_test sim_num_dof dof_state math_sin robot fuel gym joint "sin_id" w
  = Some (Raise (offence gym missing)).
Proof.
  intros [d Hd] [i Hi] Hsplit Hpre Hoff Hfuel.
  rewrite (run_id_test_sin_id _ _ _ _ _ _ _ _ _ _ Hd Hi).
  apply run_sin_id_raises; [|done].
  intros sin_pos. by apply (build_set_positions_offence _ _ _ _ pre missing v post).
Qed.

Lemma sin_id_fails_on_first_unplaced_joint_witness :
  run_id_test 12 still_state (fun x => x) StompyLegs.Stompy 101
              knee_only_gym "left knee pitch" "sin_id" empty_world
  = Some (Raise (KeyError "left hip pitch")).
Proof.
  refine (sin_id_fails_on_first_unplaced_joint
            12 still_state (fun x => x) StompyLegs.Stompy knee_only_gym
            "left knee pitch" empty_world 101
            [] (tail (default_standing StompyLegs.Stompy))
            "left hip pitch" (-1.2)%float _ _ eq_refl _ _ _).
  - by eexists.
  - by eexists.
  - constructor.
  - exact I.
  - lia.
Defined.

(** X14.  A ["calibration"] run for a joint that is found fails in its
    very first pass, given any fuel at all, with [IndexError] when the
    joint's simulator index is past the joints of the taxonomy, and with
    [RuntimeError] when the index is in range but the simulator's state
    buffer has another number of joints than the taxonomy. *)
Theorem calibration_fails_on_bad_index_or_shape
    (sim_num_dof : nat) (dof_state : list GymCall -> nat -> float * float)
    (math_sin : float -> float) (robot : Robot) (gym : GymParams)
    (joint : string) (w : World) (fuel : nat) (default_pos : float)
    (index : nat) :
  dict_get (default_standing robot) joint = Some default_pos ->
  dict_get (dof_ids gym) joint = Some index ->
  (0 < fuel)%nat ->
  ((num_dof robot <= index)%nat ->
   run_id_test sim_num_dof dof_state math_sin robot fuel gym joint
               "calibration" w
   = Some (Raise (IndexError index)))
  /\ ((index < num_dof robot)%nat -> sim_num_dof <> num_dof robot ->
      run_id_test sim_num_dof dof_state math_sin robot fuel gym joint
                  "calibration" w
      = Some (Raise (RuntimeError "shape is invalid for input size"))).
Proof.
  intros Hd Hi Hfuel.
  assert (forall e,
             (forall l, length (cal_torques l) = num_dof robot ->
                        sweep_substep sim_num_dof robot index TORQUE_SOFT l
                        = Raise e) ->
             run_id_test sim_num_dof dof_state math_sin robot fuel gym joint
                         "calibration" w = Some (Raise e)) as Hrun.
  { intros e Hsub. unfold run_id_test.
    rewrite (run_id_test_setup_ok _ _ _ _ _ Hd Hi). cbn [and_then].
    change (String.eqb "calibration" "calibration") with true. cbv iota.
    unfold run_calibration. destruct fuel as [|fuel]; [lia|].
    cbn [while cal_step]. rewrite lt_quotient_10000_40.
    change (0 <? 250)%Z with true. cbv iota.
    unfold sweep_tick. cbn [for_range].
    rewrite Hsub by apply length_replicate. reflexivity. }
  split.
  - intros Hrange. apply Hrun. intros l Hlen.
    unfold sweep_substep, setitem. by rewrite decide_False by lia.
  - intros Hrange Hshape. apply Hrun. intros l Hlen.
    unfold sweep_substep, setitem, view. rewrite decide_True by lia.
    cbn [mbind pyresult_bind Py.bind]. by rewrite decide_False.
Qed.

Lemma calibration_fails_on_bad_index_or_shape_witness :
  run_id_test 12 still_state (fun x => x) toe_robot 1 toe_gym "left toe"
              "calibration" empty_world
  = Some (Raise (IndexError 12)).
Proof.
  refine (proj1 (calibration_fails_on_bad_index_or_shape
                   12 still_state (fun x => x) toe_robot toe_gym "left toe"
                   empty_world 1 0.5%float 12 eq_refl eq_refl _) _).
  - lia.
  - vm_compute. lia.
Defined.

(** ** [calibration.py]: what a run asks of the simulator *)

Lemma for_range_counts {S} (I : nat -> S -> Prop) (body : S -> pyresult S) n s s' :
  (forall k s s', I k s -> body s = Ok s' -> I (Datatypes.S k) s') ->
  I 0%nat s -> for_range n body s = Ok s' -> I n s'.
Proof.
  intros Hbody.
  assert (forall m k s, I k s -> for_range m body s = Ok s' -> I (m + k)%nat s')
    as Hgen.
  { induction m as [|m IH]; intros k t Ht; cbn [for_range].
    - by intros [= <-].
    - destruct (body t) as [t'|e] eqn:E; cbn [mbind pyresult_bind Py.bind];
        [|done].
      intros Hrest. replace (Datatypes.S m + k)%nat with (m + Datatypes.S k)%nat by lia.
      eapply IH; [|done]. by eapply Hbody. }
  intros H0 Hrun. replace n with (n + 0)%nat by lia. by eapply Hgen.
Qed.

Lemma while_preserves {S} (I : S -> Prop) (cond : S -> bool)
    (body : S -> pyresult S) fuel s s' :
  (forall s s', I s -> cond s = true -> body s = Ok s' -> I s') ->
  I s -> while fuel cond body s = Some (Ok s') -> I s' /\ cond s' = false.
Proof.
  intros Hbody. revert s.
  induction fuel as [|fuel IH]; intros s Hs; cbn [while]; [done|].
  destruct (cond s) eqn:Hc.
  - destruct (body s) as [t|e] eqn:E; [|done].
    apply IH. by eapply Hbody.
  - by intros [= <-].
Qed.

Lemma count_calls_app kind l1 l2 :
  count_calls kind (l1 ++ l2) = (count_calls kind l1 + count_calls kind l2)%Z.
Proof. unfold count_calls. rewrite List.filter_app, length_app. lia. Qed.

Lemma count_calls_iter_frame kind n w :
  count_calls kind (calls (Nat.iter n frame w))
  = (count_calls kind (calls w)
     + Z.of_nat n * count_calls kind (calls (frame empty_world)))%Z.
Proof.
  induction n as [|n IH].
  { change (Nat.iter 0 frame w) with w. change (Z.of_nat 0) with 0%Z. lia. }
  change (calls (Nat.iter (Datatypes.S n) frame w))
    with (calls (frame empty_world) ++ calls (Nat.iter n frame w)).
  rewrite count_calls_app, IH, Nat2Z.inj_succ, Z.mul_succ_l. lia.
Qed.

Lemma sweep_trace_refl torques base : sweep_trace torques 0 0 base base.
Proof. exists []. repeat split. constructor. Qed.

Lemma sweep_trace_app torques f1 c1 f2 c2 base mid history :
  sweep_trace torques f1 c1 base mid ->
  sweep_trace torques f2 c2 mid history ->
  sweep_trace torques (f1 + f2) (c1 + c2) base history.
Proof.
  intros (n1 & -> & H1 & F1 & C1 & R1) (n2 & -> & H2 & F2 & C2 & R2).
  exists (n2 ++ n1). rewrite app_assoc. split; [done|].
  split; [by apply Forall_app|].
  rewrite !count_calls_app. repeat split; lia.
Qed.

Section SweepTrace.

Variable sim_num_dof : nat.
Variable dof_state : list GymCall -> nat -> float * float.
Variable robot : Robot.
Variable joint_id : nat.
Variable soft : float.

Implicit Types l : CalLocals.

Lemma sweep_substep_trace l l' :
  zero_off_target robot joint_id l ->
  sweep_substep sim_num_dof robot joint_id soft l = Ok l' ->
  zero_off_target robot joint_id l' /\ cal_step l' = cal_step l
  /\ sweep_trace (sweep_torques robot joint_id soft) 1 1
                 (calls (cal_world l)) (calls (cal_world l')).
Proof.
  intros Hzero. unfold sweep_substep, setitem, view.
  repeat case_decide; cbn [mbind pyresult_bind Py.bind]; try done.
  intros [= <-]. cbn [cal_torques cal_step cal_world]. split; [|split; [done|]].
  - intros v. cbn [cal_torques]. rewrite list_insert_insert_eq. apply Hzero.
  - rewrite Hzero.
    exists (calls (frame empty_world)
            ++ [acquire_dof_state_tensor;
                set_dof_actuation_force_tensor (sweep_torques robot joint_id soft)]).
    split; [reflexivity|]. split; [by repeat constructor|].
    by vm_compute.
Qed.

Lemma sweep_tick_trace l l' :
  zero_off_target robot joint_id l ->
  sweep_tick sim_num_dof dof_state robot 5 joint_id soft l = Ok l' ->
  zero_off_target robot joint_id l' /\ cal_step l' = (cal_step l + 1)%Z
  /\ sweep_trace (sweep_torques robot joint_id soft) 5 5
                 (calls (cal_world l)) (calls (cal_world l')).
Proof.
  intros Hzero. unfold sweep_tick.
  destruct (for_range 5 (sweep_substep sim_num_dof robot joint_id soft) l)
    as [l1|e] eqn:E; cbn [mbind pyresult_bind Py.bind]; [|done].
  apply (for_range_counts
           (fun k s => zero_off_target robot joint_id s /\ cal_step s = cal_step l
                       /\ sweep_trace (sweep_torques robot joint_id soft)
                                      (Z.of_nat k) (Z.of_nat k)
                                      (calls (cal_world l))
                                      (calls (cal_world s))))
    in E as (Hz1 & Hs1 & Ht1).
  - destruct (item dof_state fst (cal_q l1) (cal_world l1)) as [p|e];
      cbn [mbind pyresult_bind Py.bind]; [|done].
    intros [= <-]. cbn [cal_torques cal_step cal_world].
    split; [exact Hz1|]. split; [lia|exact Ht1].
  - intros k s s' (Hz & Hs & Ht) Es.
    destruct (sweep_substep_trace s s' Hz Es) as (Hz' & Hs' & Ht').
    split; [done|]. split; [congruence|].
    replace (Z.of_nat (Datatypes.S k)) with (Z.of_nat k + 1)%Z by lia.
    by eapply sweep_trace_app.
  - split; [done|]. split; [done|]. apply sweep_trace_refl.
Qed.

Lemma ramp_trace fuel l l' :
  zero_off_target robot joint_id l -> cal_step l = 0%Z ->
  while fuel (fun l => lt_quotient (cal_step l) 10000 40)
        (sweep_tick sim_num_dof dof_state robot 5 joint_id soft) l
  = Some (Ok l') ->
  zero_off_target robot joint_id l'
  /\ sweep_trace (sweep_torques robot joint_id soft) 1250 1250
                 (calls (cal_world l)) (calls (cal_world l')).
Proof.
  intros Hzero Hstep Hrun.
  apply (while_preserves
           (fun s => zero_off_target robot joint_id s /\ (0 <= cal_step s <= 250)%Z
                     /\ sweep_trace (sweep_torques robot joint_id soft)
                                    (5 * cal_step s) (5 * cal_step s)
                                    (calls (cal_world l))
                                    (calls (cal_world s))))
    in Hrun as [(Hz & Hs & Ht) Hexit].
  - rewrite lt_quotient_10000_40 in Hexit. apply Z.ltb_ge in Hexit.
    replace (cal_step l') with 250%Z in Ht by lia. done.
  - intros s s' (Hz & Hs & Ht) Hcond Es.
    rewrite lt_quotient_10000_40 in Hcond. apply Z.ltb_lt in Hcond.
    destruct (sweep_tick_trace s s' Hz Es) as (Hz' & Hs' & Ht').
    split; [done|]. split; [lia|].
    replace (5 * cal_step s')%Z with (5 * cal_step s + 5)%Z by lia.
    by eapply sweep_trace_app.
  - split; [done|]. split; [lia|]. rewrite Hstep. apply sweep_trace_refl.
Qed.

End SweepTrace.

Lemma run_calibration_trace sim_num_dof dof_state math_sin robot gym joint w
    fuel default_pos index :
  dict_get (default_standing robot) joint = Some default_pos ->
  dict_get (dof_ids gym) joint = Some index ->
  (index < num_dof robot)%nat ->
  sim_num_dof = num_dof robot ->
  (250 < fuel)%nat ->
  exists w' mid,
    run_id_test sim_num_dof dof_state math_sin robot fuel gym joint
                "calibration" w = Some (Ok w')
    /\ sweep_trace (sweep_torques robot index TORQUE_SOFT) 1250 1250
                   (calls (Nat.iter 100 frame w)) mid
    /\ sweep_trace (sweep_torques robot index (- TORQUE_SOFT)) 1250 1250
                   mid (calls w').
Proof.
  intros Hdef Hidx Hindex Hshape Hfuel.
  set (start := {| cal_step := 0; cal_torques := zeros (num_dof robot);
                   cal_q := None; cal_positions := [];
                   cal_world := Nat.iter 100 frame w |}).
  destruct (ramp_ok sim_num_dof dof_state robot index TORQUE_SOFT
                    Hshape Hindex fuel start Hfuel)
    as (l1 & high & E1 & _ & Hl1 & _); [done|apply length_replicate|].
  set (restart := {| cal_step := 0; cal_torques := cal_torques l1;
                     cal_q := cal_q l1; cal_positions := cal_positions l1;
                     cal_world := cal_world l1 |}).
  destruct (ramp_ok sim_num_dof dof_state robot index (- TORQUE_SOFT)%float
                    Hshape Hindex fuel restart Hfuel)
    as (l2 & low & E2 & _); [done|done|].
  destruct (ramp_trace sim_num_dof dof_state robot index TORQUE_SOFT
                       fuel start l1) as [Hz1 Ht1]; [by intros v|done|done|].
  destruct (ramp_trace sim_num_dof dof_state robot index (- TORQUE_SOFT)%float
                       fuel restart l2) as [_ Ht2]; [exact Hz1|done|done|].
  exists (savez (joint +:+ "_calibration.npz") (NpzPositions (cal_positions l2))
                (cal_world l2)), (calls (cal_world l1)).
  split; [|split; [exact Ht1|exact Ht2]].
  unfold run_id_test. rewrite (run_id_test_setup_ok _ _ _ _ _ Hdef Hidx).
  cbn [and_then].
  change (String.eqb "calibration" "calibration") with true. cbv iota.
  unfold run_calibration. fold start. rewrite E1. cbn [and_then].
  fold restart. rewrite E2. reflexivity.
Qed.



(** X16.  A ["calibration"] run advances the simulation 2600 times (the
    hundred opening frames, then once per pass of the inner loop of both
    ramps), hands it 2500 torque tensors, one before each of those later
    frames, and never asks it to refresh the joint state it reads. *)
Theorem calibration_call_counts
    (sim_num_dof : nat) (dof_state : list GymCall -> nat -> float * float)
    (math_sin : float -> float) (robot : Robot) (gym : GymParams)
    (joint : string) (w : World) (fuel : nat) (default_pos : float)
    (index : nat) :
  dict_get (default_standing robot) joint = Some default_pos ->
  dict_get (dof_ids gym) joint = Some index ->
  (index < num_dof robot)%nat ->
  sim_num_dof = num_dof robot ->
  (250 < fuel)%nat ->
  exists w',
    run_id_test sim_num_dof dof_state math_sin robot fuel gym joint
                "calibration" w = Some (Ok w')
    /\ count_calls is_simulate (calls w')
       = (count_calls is_simulate (calls w) + 2600)%Z
    /\ count_calls is_command (calls w')
       = (count_calls is_command (calls w) + 2500)%Z
    /\ count_calls is_refresh (calls w') = count_calls is_refresh (calls w).
Proof.
  intros Hdef Hidx Hindex Hshape Hfuel.
  destruct (run_calibration_trace sim_num_dof dof_state math_sin robot gym
                                  joint w fuel default_pos index
                                  Hdef Hidx Hindex Hshape Hfuel)
    as (w' & mid & E & (high & -> & _ & F1 & C1 & R1)
        & (low & Hcalls & _ & F2 & C2 & R2)).
  exists w'. split; [exact E|]. rewrite Hcalls.
  rewrite !count_calls_app, !count_calls_iter_frame, F1, F2, C1, C2, R1, R2.
  change (count_calls is_simulate (calls (frame empty_world))) with 1%Z.
  change (count_calls is_command (calls (frame empty_world))) with 0%Z.
  change (count_calls is_refresh (calls (frame empty_world))) with 0%Z.
  repeat split; lia.
Qed.

Lemma calibration_call_counts_witness :
  exists w',
    run_id_test 12 still_state (fun x => x) StompyLegs.Stompy 251
                reference_gym "left knee pitch" "calibration" empty_world
    = Some (Ok w')
    /\ count_calls is_simulate (calls w') = 2600%Z
    /\ count_calls is_command (calls w') = 2500%Z
    /\ count_calls is_refresh (calls w') = 0%Z.
Proof.
  destruct (calibration_call_counts
              12 still_state (fun x => x) StompyLegs.Stompy reference_gym
              "left knee pitch" empty_world 251 (-1.27)%float 5)
    as (w' & E & Hs & Hc & Hr);
    [reflexivity|reflexivity|vm_compute; lia|reflexivity|lia|].
  exists w'. split; [exact E|].
  split; [exact Hs|]. split; [exact Hc|exact Hr].
Defined.

Lemma call_counts_refl base : call_counts 0 0 0 base base.
Proof. by exists []. Qed.

Lemma call_counts_app f1 c1 r1 f2 c2 r2 base mid history :
  call_counts f1 c1 r1 base mid ->
  call_counts f2 c2 r2 mid history ->
  call_counts (f1 + f2) (c1 + c2) (r1 + r2) base history.
Proof.
  intros (n1 & -> & F1 & C1 & R1) (n2 & -> & F2 & C2 & R2).
  exists (n2 ++ n1). rewrite app_assoc. split; [done|].
  rewrite !count_calls_app. repeat split; lia.
Qed.

Lemma call_counts_step f c r f1 c1 r1 f2 c2 r2 base mid history :
  call_counts f1 c1 r1 base mid ->
  call_counts f2 c2 r2 mid history ->
  f = (f1 + f2)%Z -> c = (c1 + c2)%Z -> r = (r1 + r2)%Z ->
  call_counts f c r base history.
Proof. intros H1 H2 -> -> ->. by eapply call_counts_app. Qed.

Lemma call_counts_frame w : call_counts 1 0 0 (calls w) (calls (frame w)).
Proof. by exists (calls (frame empty_world)). Qed.

Section TrackCounts.

Variable sim_num_dof : nat.
Variable dof_state : list GymCall -> nat -> float * float.
Variable math_sin : float -> float.
Variable robot : Robot.
Variable gym : GymParams.
Variable joint_id : nat.
Variables kp kd default_pos dt : float.

Implicit Types l : SinLocals.

Lemma track_tick_counts l l' :
  track_tick sim_num_dof dof_state math_sin robot gym 5 dt joint_id kp kd
             default_pos l = Ok l' ->
  sin_step l' = (sin_step l + 1)%Z
  /\ call_counts 1 5 5 (calls (sin_world l)) (calls (sin_world l')).
Proof.
  unfold track_tick.
  set (l0 := {| sin_step := sin_step l; sin_bound := sin_bound l;
                sin_q := sin_q l; time_data := time_data l;
                position_data := position_data l;
                velocity_data := velocity_data l;
                sin_world := frame (sin_world l) |}).
  set (sin_pos := math_sin _).
  destruct (for_range 5 (track_substep sim_num_dof dof_state robot gym joint_id
                                       kp kd sin_pos) l0)
    as [l1|e] eqn:E; cbn [mbind pyresult_bind Py.bind]; [|done].
  apply (for_range_counts
           (fun k s => sin_step s = sin_step l
                       /\ call_counts 1 (Z.of_nat k) (Z.of_nat k)
                                      (calls (sin_world l))
                                      (calls (sin_world s))))
    in E as (Hs1 & Hc1).
  - destruct (item dof_state fst (sin_q l1) (sin_world l1)) as [q|e];
      cbn [mbind pyresult_bind Py.bind]; [|done].
    destruct (item dof_state snd (sin_q l1) (sin_world l1)) as [dq|e];
      cbn [mbind pyresult_bind Py.bind]; [|done].
    intros [= <-]. cbn [sin_step sin_world]. split; [lia|exact Hc1].
  - intros k s s' (Hs & Hc) Es.
    apply track_substep_inv in Es as (sp & _ & Hcalls & (Hstep & _) & _).
    split; [congruence|].
    eapply (call_counts_step _ _ _ _ _ _ 0 1 1); [exact Hc| |lia..].
    rewrite Hcalls. by eexists [_; _; _].
  - split; [done|]. apply call_counts_frame.
Qed.

Lemma run_sin_id_counts fuel w w' :
  run_sin_id sim_num_dof dof_state math_sin robot fuel gym 5 dt joint_id
             kp kd default_pos w = Some (Ok w') ->
  call_counts 10000 49500 49500 (calls w) (calls w').
Proof.
  unfold run_sin_id.
  destruct (while fuel (fun l => sin_step l <? 100)%Z settle_tick _)
    as [[l1|e]|] eqn:E1; cbn [and_then]; [|done|done].
  destruct (while fuel (fun l => sin_step l <? 10000)%Z _ l1)
    as [[l2|e]|] eqn:E2; cbn [and_then]; [|done|done].
  intros [= <-]. cbn [calls savez gym_call].
  apply (while_preserves
           (fun s => (0 <= sin_step s <= 100)%Z
                     /\ call_counts (sin_step s) 0 0 (calls w)
                                    (calls (sin_world s))))
    in E1 as [(Hs1 & Hc1) Hexit1].
  2:{ intros s s' (Hs & Hc) Hcond [= <-]. apply Z.ltb_lt in Hcond.
      cbn [sin_step sin_world]. split; [lia|].
      eapply call_counts_step; [exact Hc|apply call_counts_frame|lia..]. }
  2:{ cbn [sin_step sin_world]. split; [lia|apply call_counts_refl]. }
  apply Z.ltb_ge in Hexit1. assert (sin_step l1 = 100%Z) as Hl1 by lia.
  rewrite Hl1 in Hc1.
  apply (while_preserves
           (fun s => (100 <= sin_step s <= 10000)%Z
                     /\ call_counts (sin_step s - 100)
                                    (5 * (sin_step s - 100))
                                    (5 * (sin_step s - 100))
                                    (calls (sin_world l1))
                                    (calls (sin_world s))))
    in E2 as [(Hs2 & Hc2) Hexit2].
  2:{ intros s s' (Hs & Hc) Hcond Es. apply Z.ltb_lt in Hcond.
      apply track_tick_counts in Es as (Hstep & Hc').
      split; [lia|].
      eapply call_counts_step; [exact Hc|exact Hc'|lia..]. }
  2:{ rewrite Hl1. split; [lia|]. apply call_counts_refl. }
  apply Z.ltb_ge in Hexit2.
  replace (sin_step l2) with 10000%Z in Hc2 by lia.
  eapply (call_counts_step _ _ _ _ _ _ 0 0 0);
    [eapply call_counts_app; [exact Hc1|exact Hc2]| |lia..].
  by exists [destroy_sim; destroy_viewer].
Qed.

End TrackCounts.

(** X17.  A ["sin_id"] run advances the simulation once per pass of its
    two outer loops, 10000 times in all, and not in the passes of the
    inner loop; there it hands over a torque tensor and asks for a refresh
    of the joint state, 5 times per Track pass, 49500 times each. *)
Theorem sin_id_call_counts
    (sim_num_dof : nat) (dof_state : list GymCall -> nat -> float * float)
    (math_sin : float -> float) (robot : Robot) (gym : GymParams)
    (joint : string) (w : World) (fuel : nat) (default_pos : float)
    (index : nat) :
  dict_get (default_standing robot) joint = Some default_pos ->
  dict_get (dof_ids gym) joint = Some index ->
  (index < num_dof robot)%nat ->
  dofs_ok robot gym ->
  sim_num_dof = num_dof robot ->
  (9900 < Z.of_nat fuel)%Z ->
  exists w',
    run_id_test sim_num_dof dof_state math_sin robot fuel gym joint "sin_id" w
    = Some (Ok w')
    /\ count_calls is_simulate (calls w')
       = (count_calls is_simulate (calls w) + 10000)%Z
    /\ count_calls is_command (calls w')
       = (count_calls is_command (calls w) + 49500)%Z
    /\ count_calls is_refresh (calls w')
       = (count_calls is_refresh (calls w) + 49500)%Z.
Proof.
  intros Hdef Hidx Hindex Hdofs Hshape Hfuel.
  rewrite (run_id_test_sin_id _ _ _ _ _ _ _ _ _ _ Hdef Hidx).
  destruct (run_sin_id_ok sim_num_dof dof_state math_sin robot gym 0.001 index
                          (resolve_gains robot joint).1
                          (resolve_gains robot joint).2 default_pos w fuel
                          Hshape Hdofs Hindex Hfuel)
    as (w' & _ & _ & E & _).
  exists w'. split; [exact E|].
  apply run_sin_id_counts in E as (new & -> & F & C & R).
  rewrite !count_calls_app, F, C, R. repeat split; lia.
Qed.

Lemma sin_id_call_counts_witness :
  exists w',
    run_id_test 12 still_state (fun x => x) StompyLegs.Stompy (Z.to_nat 9901)
                reference_gym "left knee pitch" "sin_id" empty_world
    = Some (Ok w')
    /\ count_calls is_simulate (calls w') = 10000%Z
    /\ count_calls is_command (calls w') = 49500%Z
    /\ count_calls is_refresh (calls w') = 49500%Z.
Proof.
  destruct (sin_id_call_counts
              12 still_state (fun x => x) StompyLegs.Stompy reference_gym
              "left knee pitch" empty_world (Z.to_nat 9901) (-1.27)%float 5)
    as (w' & E & Hs & Hc & Hr);
    [reflexivity|reflexivity|vm_compute; lia|decide_dofs_ok|reflexivity|lia|].
  exists w'. split; [exact E|].
  split; [exact Hs|]. split; [exact Hc|exact Hr].
Defined.

(** ** [calibration.py]: clipping *)





(** ** [calibration.py]: the driver loop *)

Lemma filter_unselected (joints : list string) :
  Forall (fun joint => selected joint = false) joints ->
  List.filter selected joints = [].
Proof.
  induction 1 as [|joint joints Hj _ IH]; cbn; [done|]. by rewrite Hj.
Qed.

(** X19.  [main] calls [run_id_test] in the order of the default-standing
    mapping and stops at the first call that raises: when the first
    selected joint's run raises, [main] raises the same exception and no
    later joint is calibrated; and when no joint is selected, [main]
    returns without a call. *)
Theorem main_stops_at_first_failure
    (sim_num_dof : nat) (dof_state : list GymCall -> nat -> float * float)
    (math_sin : float -> float) (robot : Robot) (gym : GymParams)
    (fuel : nat) (w : World) :
  (forall pre joint post e,
      keys (default_standing robot) = pre ++ joint :: post ->
      Forall (fun joint => selected joint = false) pre ->
      selected joint = true ->
      run_id_test sim_num_dof dof_state math_sin robot fuel gym joint
                  "calibration" w = Some (Raise e) ->
      main sim_num_dof dof_state math_sin robot fuel gym w = Some (Raise e))
  /\ (Forall (fun joint => selected joint = false)
             (keys (default_standing robot)) ->
      main sim_num_dof dof_state math_sin robot fuel gym w = Some (Ok w)).
Proof.
  unfold main. split.
  - intros pre joint post e Hkeys Hpre Hsel Hrun.
    rewrite main_loop_eq, Hkeys, List.filter_app, (filter_unselected pre Hpre).
    cbn [app List.filter]. rewrite Hsel. cbn [run_each]. by rewrite Hrun.
  - intros Hnone. by rewrite main_loop_eq, (filter_unselected _ Hnone).
Qed.

Lemma main_stops_at_first_failure_witness :
  main 12 still_state (fun x => x) StompyLegs.Stompy 251 no_dofs_gym
       empty_world
  = Some (Raise (KeyError "left ankle pitch")).
Proof.
  refine (proj1 (main_stops_at_first_failure
                   12 still_state (fun x => x) StompyLegs.Stompy no_dofs_gym
                   251 empty_world)
                [ "left hip pitch"; "left hip yaw"; "left hip roll";
                  "left knee pitch" ]
                "left ankle pitch"
                [ "left ankle roll"; "right hip pitch"; "right hip yaw";
                  "right hip roll"; "right knee pitch"; "right ankle pitch";
                  "right ankle roll" ]
                (KeyError "left ankle pitch") eq_refl _ eq_refl _).
  - repeat constructor.
  - apply run_id_test_unknown_joint. by right.
Defined.

(** ** [calibration.py]: what the traces hold *)

Lemma sweep_substep_inv sim_num_dof robot joint_id soft (l l' : CalLocals) :
  sweep_substep sim_num_dof robot joint_id soft l = Ok l' ->
  cal_q l' = Some joint_id /\ cal_positions l' = cal_positions l.
Proof.
  unfold sweep_substep, setitem, view.
  repeat case_decide; cbn [mbind pyresult_bind Py.bind]; try done.
  by intros [= <-].
Qed.

Lemma sweep_tick_samples sim_num_dof dof_state robot joint_id soft
    (l l' : CalLocals) :
  sweep_tick sim_num_dof dof_state robot 5 joint_id soft l = Ok l' ->
  Forall (sampled dof_state fst joint_id) (cal_positions l) ->
  Forall (sampled dof_state fst joint_id) (cal_positions l').
Proof.
  unfold sweep_tick. intros Hrun Hsampled.
  destruct (for_range 5 (sweep_substep sim_num_dof robot joint_id soft) l)
    as [l1|e] eqn:E; cbn [mbind pyresult_bind Py.bind] in Hrun; [|done].
  apply (for_range_counts
           (fun k s => cal_positions s = cal_positions l
                       /\ ((0 < k)%nat -> cal_q s = Some joint_id)))
    in E as (Hpos & Hq).
  - rewrite Hq in Hrun by lia. cbn [item mbind pyresult_bind Py.bind] in Hrun.
    injection Hrun as <-. cbn [cal_positions]. rewrite Hpos.
    apply Forall_app. split; [done|]. constructor; [|constructor].
    by eexists.
  - intros k s s' (Hs & _) Es. apply sweep_substep_inv in Es as (Hq' & Hp').
    split; [congruence|done].
  - split; [done|lia].
Qed.

(** X20.  The positions saved by a ["calibration"] run are all readings
    of the target joint's position from the simulator's state buffer, and
    of no other joint or column. *)
Theorem calibration_saves_target_positions
    (sim_num_dof : nat) (dof_state : list GymCall -> nat -> float * float)
    (math_sin : float -> float) (robot : Robot) (gym : GymParams)
    (joint : string) (w : World) (fuel : nat) (default_pos : float)
    (index : nat) :
  dict_get (default_standing robot) joint = Some default_pos ->
  dict_get (dof_ids gym) joint = Some index ->
  (index < num_dof robot)%nat ->
  sim_num_dof = num_dof robot ->
  (250 < fuel)%nat ->
  exists w' positions,
    run_id_test sim_num_dof dof_state math_sin robot fuel gym joint
                "calibration" w = Some (Ok w')
    /\ files w'
       = (joint +:+ "_calibration.npz", NpzPositions positions) :: files w
    /\ Forall (sampled dof_state fst index) positions.
Proof.
  intros Hdef Hidx Hindex Hshape Hfuel.
  set (start := {| cal_step := 0; cal_torques := zeros (num_dof robot);
                   cal_q := None; cal_positions := [];
                   cal_world := Nat.iter 100 frame w |}).
  destruct (ramp_ok sim_num_dof dof_state robot index TORQUE_SOFT
                    Hshape Hindex fuel start Hfuel)
    as (l1 & high & E1 & _ & Hl1 & _ & _ & Hf1);
    [done|apply length_replicate|].
  set (restart := {| cal_step := 0; cal_torques := cal_torques l1;
                     cal_q := cal_q l1; cal_positions := cal_positions l1;
                     cal_world := cal_world l1 |}).
  destruct (ramp_ok sim_num_dof dof_state robot index (- TORQUE_SOFT)%float
                    Hshape Hindex fuel restart Hfuel)
    as (l2 & low & E2 & _ & _ & _ & _ & Hf2); [done|done|].
  exists (savez (joint +:+ "_calibration.npz") (NpzPositions (cal_positions l2))
                (cal_world l2)), (cal_positions l2).
  split; [|split].
  - unfold run_id_test. rewrite (run_id_test_setup_ok _ _ _ _ _ Hdef Hidx).
    cbn [and_then].
    change (String.eqb "calibration" "calibration") with true. cbv iota.
    unfold run_calibration. fold start. rewrite E1. cbn [and_then].
    fold restart. rewrite E2. reflexivity.
  - cbn [files savez]. rewrite Hf2. cbn [cal_world restart]. rewrite Hf1.
    cbn [cal_world start]. by rewrite files_iter_frame.
  - pose proof E1 as K1.
    apply (while_preserves
             (fun s => Forall (sampled dof_state fst index) (cal_positions s)))
      in K1 as [K1 _]; [|by intros s s' Hs _ Es; eapply sweep_tick_samples|constructor].
    apply (while_preserves
             (fun s => Forall (sampled dof_state fst index) (cal_positions s)))
      in E2 as [K2 _]; [done|by intros s s' Hs _ Es; eapply sweep_tick_samples|done].
Qed.

Lemma calibration_saves_target_positions_witness :
  exists w' positions,
    run_id_test 12 still_state (fun x => x) StompyLegs.Stompy 251
                reference_gym "left knee pitch" "calibration" empty_world
    = Some (Ok w')
    /\ files w' = [("left knee pitch_calibration.npz", NpzPositions positions)]
    /\ Forall (sampled still_state fst 5) positions.
Proof.
  destruct (calibration_saves_target_positions
              12 still_state (fun x => x) StompyLegs.Stompy reference_gym
              "left knee pitch" empty_world 251 (-1.27)%float 5)
    as (w' & positions & E & Hf & Hs);
    [reflexivity|reflexivity|vm_compute; lia|reflexivity|lia|].
  exists w', positions. split; [exact E|]. split; [exact Hf|exact Hs].
Defined.

Lemma track_tick_samples sim_num_dof dof_state math_sin robot gym dt joint_id
    kp kd default_pos (l l' : SinLocals) :
  track_tick sim_num_dof dof_state math_sin robot gym 5 dt joint_id kp kd
             default_pos l = Ok l' ->
  Forall (sampled_offset dof_state joint_id default_pos) (position_data l)
  /\ Forall (sampled dof_state snd joint_id) (velocity_data l) ->
  Forall (sampled_offset dof_state joint_id default_pos) (position_data l')
  /\ Forall (sampled dof_state snd joint_id) (velocity_data l').
Proof.
  unfold track_tick. intros Hrun [Hpos Hvel].
  set (l0 := {| sin_step := sin_step l; sin_bound := sin_bound l;
                sin_q := sin_q l; time_data := time_data l;
                position_data := position_data l;
                velocity_data := velocity_data l;
                sin_world := frame (sin_world l) |}) in Hrun.
  set (sin_pos := math_sin _) in Hrun.
  destruct (for_range 5 (track_substep sim_num_dof dof_state robot gym joint_id
                                       kp kd sin_pos) l0)
    as [l1|e] eqn:E; cbn [mbind pyresult_bind Py.bind] in Hrun; [|done].
  apply (for_range_counts
           (fun k s => position_data s = position_data l
                       /\ velocity_data s = velocity_data l
                       /\ ((0 < k)%nat -> sin_q s = Some joint_id)))
    in E as (Hp & Hv & Hq).
  - rewrite Hq in Hrun by lia. cbn [item mbind pyresult_bind Py.bind] in Hrun.
    injection Hrun as <-. cbn [position_data velocity_data].
    rewrite Hp, Hv. split; apply Forall_app; (split; [done|]);
      (constructor; [|constructor]).
    + eexists. split; [by eexists|reflexivity].
    + by eexists.
  - intros k s s' (Hs1 & Hs2 & _) Es.
    apply track_substep_inv in Es as (sp & _ & _ & (_ & _ & K1 & K2 & _) & Hq' & _).
    split; [congruence|]. split; [congruence|done].
  - split; [done|]. split; [done|lia].
Qed.

Lemma run_sin_id_samples sim_num_dof dof_state math_sin robot gym dt joint_id
    kp kd default_pos fuel w w' :
  run_sin_id sim_num_dof dof_state math_sin robot fuel gym 5 dt joint_id
             kp kd default_pos w = Some (Ok w') ->
  exists steps position velocity rest,
    files w' = ("simulaion.npz", NpzSeries steps position velocity) :: rest
    /\ Forall (sampled_offset dof_state joint_id default_pos) position
    /\ Forall (sampled dof_state snd joint_id) velocity.
Proof.
  unfold run_sin_id.
  destruct (while fuel (fun l => sin_step l <? 100)%Z settle_tick _)
    as [[l1|e]|] eqn:E1; cbn [and_then]; [|done|done].
  destruct (while fuel (fun l => sin_step l <? 10000)%Z _ l1)
    as [[l2|e]|] eqn:E2; cbn [and_then]; [|done|done].
  intros [= <-].
  apply (while_preserves
           (fun s => position_data s = [] /\ velocity_data s = []))
    in E1 as [[Hp1 Hv1] _]; [|by intros s s' Hs _ [= <-]|done].
  apply (while_preserves
           (fun s => Forall (sampled_offset dof_state joint_id default_pos)
                            (position_data s)
                     /\ Forall (sampled dof_state snd joint_id)
                               (velocity_data s)))
    in E2 as [[Hp2 Hv2] _].
  - by eexists _, _, _, _.
  - intros s s' Hs _ Es. by eapply track_tick_samples.
  - rewrite Hp1, Hv1. split; constructor.
Qed.

(** X21.  The traces saved by a ["sin_id"] run hold, tick by tick,
    readings of the target joint only: each position is a reading of the
    target's position less the target's default standing angle, each
    velocity a reading of the target's velocity. *)
Theorem sin_id_saves_target_traces
    (sim_num_dof : nat) (dof_state : list GymCall -> nat -> float * float)
    (math_sin : float -> float) (robot : Robot) (gym : GymParams)
    (joint : string) (w : World) (fuel : nat) (default_pos : float)
    (index : nat) :
  dict_get (default_standing robot) joint = Some default_pos ->
  dict_get (dof_ids gym) joint = Some index ->
  (index < num_dof robot)%nat ->
  dofs_ok robot gym ->
  sim_num_dof = num_dof robot ->
  (9900 < Z.of_nat fuel)%Z ->
  exists w' position velocity,
    run_id_test sim_num_dof dof_state math_sin robot fuel gym joint "sin_id" w
    = Some (Ok w')
    /\ files w'
       = ("simulaion.npz", NpzSeries (seqZ 100 9900) position velocity)
           :: files w
    /\ Forall (sampled_offset dof_state index default_pos) position
    /\ Forall (sampled dof_state snd index) velocity.
Proof.
  intros Hdef Hidx Hindex Hdofs Hshape Hfuel.
  rewrite (run_id_test_sin_id _ _ _ _ _ _ _ _ _ _ Hdef Hidx).
  destruct (run_sin_id_ok sim_num_dof dof_state math_sin robot gym 0.001 index
                          (resolve_gains robot joint).1
                          (resolve_gains robot joint).2 default_pos w fuel
                          Hshape Hdofs Hindex Hfuel)
    as (w' & position & velocity & E & Hfiles & _).
  exists w', position, velocity. split; [exact E|]. split; [exact Hfiles|].
  apply run_sin_id_samples in E
    as (steps & position' & velocity' & rest & Hfiles' & Hp & Hv).
  rewrite Hfiles in Hfiles'. by injection Hfiles' as _ -> -> _.
Qed.

Lemma sin_id_saves_target_traces_witness :
  exists w' position velocity,
    run_id_test 12 still_state (fun x => x) StompyLegs.Stompy (Z.to_nat 9901)
                reference_gym "left knee pitch" "sin_id" empty_world
    = Some (Ok w')
    /\ files w'
       = [("simulaion.npz", NpzSeries (seqZ 100 9900) position velocity)]
    /\ Forall (sampled_offset still_state 5 (-1.27)) position
    /\ Forall (sampled still_state snd 5) velocity.
Proof.
  destruct (sin_id_saves_target_traces
              12 still_state (fun x => x) StompyLegs.Stompy reference_gym
              "left knee pitch" empty_world (Z.to_nat 9901) (-1.27)%float 5)
    as (w' & position & velocity & E & Hf & Hp & Hv);
    [reflexivity|reflexivity|vm_compute; lia|decide_dofs_ok|reflexivity|lia|].
  exists w', position, velocity. split; [exact E|].
  split; [exact Hf|]. split; [exact Hp|exact Hv].
Defined.
